(** * peertube-plugin-human-transcoding-settings: a shallow embedding

    The repository holds three prototypes of one PeerTube plugin:

    - [LiveReload]    (live reload of per-resolution transcoding profiles,
                       [updateTranscodingProfiles], [unregister]);
    - [Hook]          (the `on-video-transcoding` hook that rewrites the
                       argument string of every host profile);
    - [SingleProfile] (one fixed profile name, options built lazily).

    JavaScript strings are sequences of UTF-16 code units; the regular
    expressions of the source have no `u` flag and therefore work on code
    units.  A string is modelled as the list of its code units. *)

From Equations Require Import Equations.
From Equations.Prop Require Import Logic.
From stdpp Require Import gmap list strings.
From Stdlib Require Import ZArith NArith Ascii Lia.

Open Scope N_scope.

(* ===================================================================== *)
(** ** JavaScript strings *)
(* ===================================================================== *)

Module Js.

(** a code unit; values above 65535 never occur and behave as ordinary
    characters everywhere below *)
Abbreviation char := N (only parsing).
Abbreviation jsstring := (list N) (only parsing).

(** string literals of the source *)
Fixpoint str (s : string) : jsstring :=
  match s with
  | EmptyString => []
  | String a t => N_of_ascii a :: str t
  end.

Definition DQUOTE : char := 34.
Definition SQUOTE : char := 39.
Definition PERCENT : char := 37.

(** the class [\s] of ECMAScript: WhiteSpace and LineTerminator *)
Definition isSpace (c : char) : bool :=
  ((9 <=? c) && (c <=? 13))        (* TAB LF VT FF CR *)
  || (c =? 32)                     (* SP *)
  || (c =? 160)                    (* NBSP *)
  || (c =? 5760)                   (* U+1680 *)
  || ((8192 <=? c) && (c <=? 8202))  (* U+2000 .. U+200A *)
  || (c =? 8232) || (c =? 8233)    (* LS PS *)
  || (c =? 8239)                   (* U+202F *)
  || (c =? 8287)                   (* U+205F *)
  || (c =? 12288)                  (* U+3000 *)
  || (c =? 65279).                 (* U+FEFF *)

(** [span p s]: the longest prefix of [s] whose characters satisfy [p], and
    what follows it *)
Fixpoint span (p : char -> bool) (s : jsstring) : jsstring * jsstring :=
  match s with
  | [] => ([], [])
  | c :: t =>
      if p c then let '(m, r) := span p t in (c :: m, r) else ([], s)
  end.

(** ToBoolean on a string: the empty string is the only falsy one *)
Definition truthy (s : jsstring) : bool :=
  match s with [] => false | _ => true end.

(** [x || d] where [x] is a string or [undefined] *)
Definition orElse (x : option jsstring) (d : jsstring) : jsstring :=
  match x with
  | Some s => if truthy s then s else d
  | None => d
  end.

(** ToString inside a template literal, for a string or [undefined] *)
Definition toStr (x : option jsstring) : jsstring :=
  match x with
  | Some s => s
  | None => str "undefined"
  end.

(** *** Numbers

    The numbers of the source are thread counts and picture dimensions.
    They are modelled as integers; [Number_toString] is the decimal
    rendering JavaScript gives an integer of magnitude at most 2^53, the
    range in which every integer is a number of JavaScript.  Statements
    that spell out the rendering of a number carry that bound. *)

Definition digit (d : N) : char := 48 + d.

Fixpoint digitsFuel (fuel : nat) (n : N) (acc : jsstring) : jsstring :=
  match fuel with
  | O => acc
  | S f =>
      let acc' := digit (n mod 10) :: acc in
      if n <? 10 then acc' else digitsFuel f (n / 10) acc'
  end.

(** decimal digits of a natural number, most significant first; a number
    has [1 + log2 n] binary digits and no more decimal ones *)
Definition digits (n : N) : jsstring := digitsFuel (S (N.to_nat (N.log2 n))) n [].

Definition Number_toString (z : Z) : jsstring :=
  match z with
  | Z0 => str "0"
  | Zpos p => digits (Npos p)
  | Zneg p => str "-" ++ digits (Npos p)
  end.

Definition isDigit (c : char) : bool := (48 <=? c) && (c <=? 57).

(** one more digit read *)
Definition step (a c : N) : N := 10 * a + (c - 48).

(** value of a run of decimal digits *)
Definition digitsValue (ds : jsstring) : N := fold_left step ds 0.

(** a character of the rendering of an integer: a digit or the sign *)
Definition numeric (c : char) : Prop := c = 45 \/ (48 <= c /\ c <= 57).

(** [parseInt(s, 10)] on a string: leading white space is skipped, one
    sign is accepted, the longest run of decimal digits is read and the rest
    ignored; [None] is NaN.  The result is the mathematical integer, which
    is what JavaScript returns up to 2^53. *)
Definition parseInt10 (s : jsstring) : option Z :=
  let '(_, s1) := span isSpace s in
  let '(neg, s2) :=
    match s1 with
    | c :: t => if c =? 45 then (true, t) else if c =? 43 then (false, t) else (false, s1)
    | [] => (false, s1)
    end in
  match span isDigit s2 with
  | ([], _) => None
  | (ds, _) => Some (if neg then (- Z.of_N (digitsValue ds))%Z else Z.of_N (digitsValue ds))
  end.

(** [parseInt(x, 10) || 0] for a string or [undefined]: NaN and 0 are
    falsy *)
Definition parseIntOrZero (x : option jsstring) : Z :=
  match parseInt10 (toStr x) with
  | Some z => z
  | None => 0%Z
  end.

(** *** [String.prototype.replace] with a global literal pattern of two
    characters and a replacement text without `$` *)
Fixpoint replaceAll2 (a b : char) (by_ : jsstring) (s : jsstring) : jsstring :=
  match s with
  | [] => []
  | c :: t =>
      match t with
      | d :: t' =>
          if (c =? a) && (d =? b)
          then by_ ++ replaceAll2 a b by_ t'
          else c :: replaceAll2 a b by_ t
      | [] => [c]
      end
  end.

(** the head of a text is not [b] *)
Definition headIsNot (b : char) (X : jsstring) : Prop :=
  match X with
  | d :: _ => d <> b
  | [] => True
  end.

End Js.

Import Js.

(* ===================================================================== *)
(** ** The option tokenizer (part_000 and the single-profile main.ts) *)
(* ===================================================================== *)

(** Both files define [parseOptionsString] with the same body: the empty
    list for a falsy argument, otherwise [optionsStr.match(re) || []], where
    [re] is a global pattern of the shape [(P | D | S)+] with

    - [P]: one or more characters that are neither white space nor a quote,
    - [D]: a double quote, any characters but the double quote (in a capture
           group), a double quote,
    - [S]: the same with the single quote.

    The definitions below follow the regular expression part by part. *)

Module Tokenizer.

(** a partial match: the matched text and the rest of the input *)
Definition matched := option (jsstring * jsstring).

(** the character class of [P] *)
Definition plainChar (c : char) : bool :=
  negb (isSpace c) && negb (c =? DQUOTE) && negb (c =? SQUOTE).

(** [P]: the class repeated, greedy, at least once *)
Definition plainRun (s : jsstring) : matched :=
  match span plainChar s with
  | ([], _) => None
  | (m, rest) => Some (m, rest)
  end.

(** [D] for [q] the double quote, [S] for the single quote: the opening
    quote, the characters up to the next quote of the same kind, and that
    quote.  The matched text includes both quotes. *)
Definition quotedRun (q : char) (s : jsstring) : matched :=
  match s with
  | c :: t =>
      if c =? q then
        match span (fun d => negb (d =? q)) t with
        | (inner, _ :: rest) => Some (q :: inner ++ [q], rest)
        | (_, []) => None
        end
      else None
  | [] => None
  end.

(** the alternation, tried from left to right *)
Definition alternative (s : jsstring) : matched :=
  match plainRun s with
  | Some r => Some r
  | None =>
      match quotedRun DQUOTE s with
      | Some r => Some r
      | None => quotedRun SQUOTE s
      end
  end.

Lemma span_length p s m r : span p s = (m, r) -> length s = (length m + length r)%nat.
Proof.
  revert m r; induction s as [|c t IH]; intros m r; simpl.
  - intros [= <- <-]; reflexivity.
  - destruct (p c).
    + destruct (span p t) as [m' r'] eqn:E. intros [= <- <-]; simpl.
      rewrite (IH _ _ eq_refl); reflexivity.
    + intros [= <- <-]; reflexivity.
Qed.

Lemma plainRun_shrinks s m r : plainRun s = Some (m, r) -> (length r < length s)%nat.
Proof.
  unfold plainRun. destruct (span plainChar s) as [[|c m'] r'] eqn:E; [discriminate|].
  intros [= <- <-]. apply span_length in E. simpl in E. lia.
Qed.

Lemma quotedRun_shrinks q s m r : quotedRun q s = Some (m, r) -> (length r < length s)%nat.
Proof.
  destruct s as [|c t]; simpl; [discriminate|].
  destruct (c =? q); [|discriminate].
  destruct (span _ t) as [inner [|d rest]] eqn:E; [discriminate|].
  intros [= <- <-]. apply span_length in E. simpl in *. lia.
Qed.

Lemma alternative_shrinks s m r : alternative s = Some (m, r) -> (length r < length s)%nat.
Proof.
  unfold alternative.
  destruct (plainRun s) as [[m1 r1]|] eqn:E1.
  - intros [= <- <-]. eapply plainRun_shrinks; eassumption.
  - destruct (quotedRun DQUOTE s) as [[m2 r2]|] eqn:E2.
    + intros [= <- <-]. eapply quotedRun_shrinks; eassumption.
    + apply quotedRun_shrinks.
Qed.

(** the group repeated, after a first iteration: every iteration takes the
    first alternative that matches and nothing follows the group in the
    pattern, so the greedy run is the match the backtracking matcher
    returns *)
Equations? iterate (s : jsstring) : jsstring * jsstring by wf (length s) lt :=
  iterate s with inspect (alternative s) := {
    | exist _ None _ => ([], s)
    | exist _ (Some (m, rest)) H =>
        let '(m', rest') := iterate rest in (m ++ m', rest') }.
Proof. eapply alternative_shrinks; eassumption. Qed.

(** the whole pattern at the start of [s] *)
Definition matchHere (s : jsstring) : matched :=
  match alternative s with
  | None => None
  | Some (m, rest) => let '(m', rest') := iterate rest in Some (m ++ m', rest')
  end.

Lemma iterate_le s : (length (snd (iterate s)) <= length s)%nat.
Proof.
  funelim (iterate s).
  - match goal with
    | E : alternative _ = Some (_, ?r) |- _ =>
        pose proof (alternative_shrinks _ _ _ E); destruct (iterate r); simpl in *; lia
    end.
  - simpl. lia.
Qed.

Lemma matchHere_shrinks s m r : matchHere s = Some (m, r) -> (length r < length s)%nat.
Proof.
  unfold matchHere. destruct (alternative s) as [[m1 r1]|] eqn:E; [|discriminate].
  apply alternative_shrinks in E.
  pose proof (iterate_le r1) as Hle.
  destruct (iterate r1) as [m' r']. intros [= <- <-]. simpl in Hle. lia.
Qed.

(** the [g] flag of [String.prototype.match]: every match from left to
    right, the search resuming after a match, or one character further
    where the pattern does not match *)
Equations? matchAll (s : jsstring) : list jsstring by wf (length s) lt :=
  matchAll [] := [];
  matchAll (c :: t) with inspect (matchHere (c :: t)) := {
    | exist _ None _ => matchAll t
    | exist _ (Some (m, rest)) H => m :: matchAll rest }.
Proof.
  all: try (simpl; lia).
  eapply matchHere_shrinks; eassumption.
Qed.

(** [s.match(re)]: [null] when nothing matches *)
Definition String_match (s : jsstring) : option (list jsstring) :=
  match matchAll s with
  | [] => None
  | l => Some l
  end.

End Tokenizer.

Definition parseOptionsString (optionsStr : option jsstring) : list jsstring :=
  match optionsStr with
  | None => []                         (* !undefined *)
  | Some s =>
      if negb (truthy s) then []       (* the empty string is falsy *)
      else match Tokenizer.String_match s with
           | Some l => l
           | None => []                (* null || [] *)
           end
  end.


(* ===================================================================== *)
(** ** What the plugin and the host exchange *)
(* ===================================================================== *)

(** The settings object maps a setting name to a string (settings of type
    `input`, `input-textarea`) or to a boolean (`input-checkbox`).  The
    source reads every key at one type only, through the casts `as string`
    and `as boolean`; the record keeps the entries of the two types apart.
    A key that is absent reads as [undefined], here [None]. *)
Record Settings := {
  strings : gmap jsstring jsstring;
  flags : gmap jsstring bool
}.

(** what a profile builder returns *)
Record Options := {
  inputOptions : list jsstring;
  outputOptions : list jsstring
}.

Inductive StreamType := video | audio.

Record EncoderPriority := {
  streamType : StreamType;
  priorityEncoder : jsstring;
  priority : Z
}.

Inductive LogLevel := info | warn.

Definition LogLine : Type := LogLevel * jsstring.

(** ToBoolean on a boolean or [undefined] *)
Definition truthyFlag (x : option bool) : bool :=
  match x with Some b => b | None => false end.

(** ToBoolean on a string or [undefined] *)
Definition truthyStr (x : option jsstring) : bool :=
  match x with Some s => truthy s | None => false end.

(* ===================================================================== *)
(** ** part_000: profiles per resolution, reloaded on every change *)
(* ===================================================================== *)

Module LiveReload.

(** a registered VOD profile; the builder of the source is a thunk over
    constants of the enclosing iteration, it is kept as the value it
    returns *)
Record VODProfile := {
  encoder : jsstring;
  profileName : jsstring;
  build : Options
}.

(** The host side of [transcodingManager] and [logger]: the profiles and
    the encoder priorities registered so far, and the lines logged, each in
    call order. *)
Record Host := {
  vodProfiles : list VODProfile;
  encoderPriorities : list EncoderPriority;
  logged : list LogLine
}.

Definition Cmd := Host -> Host.

Definition skip : Cmd := fun h => h.

Definition addVODProfile (enc name : jsstring) (b : Options) : Cmd := fun h =>
  {| vodProfiles := vodProfiles h ++ [ {| encoder := enc; profileName := name; build := b |} ];
     encoderPriorities := encoderPriorities h;
     logged := logged h |}.

Definition addVODEncoderPriority (k : StreamType) (enc : jsstring) (score : Z) : Cmd := fun h =>
  {| vodProfiles := vodProfiles h;
     encoderPriorities :=
       encoderPriorities h ++ [ {| streamType := k; priorityEncoder := enc; priority := score |} ];
     logged := logged h |}.

Definition removeAllProfilesAndEncoderPriorities : Cmd := fun h =>
  {| vodProfiles := []; encoderPriorities := []; logged := logged h |}.

Definition log (l : LogLevel) (msg : jsstring) : Cmd := fun h =>
  {| vodProfiles := vodProfiles h;
     encoderPriorities := encoderPriorities h;
     logged := logged h ++ [ (l, msg) ] |}.

Notation "c1 ;; c2" := (fun h : Host => c2 (c1 h))
  (at level 100, c2 at level 200, right associativity).

(** [for (const x of xs) body] *)
Definition forOf {A} (xs : list A) (body : A -> Cmd) : Cmd :=
  fun h => fold_left (fun h' x => body x h') xs h.

(** a non-null reference to an object of the host *)
Inductive handle := attached.

Record PluginContext := {
  transcodingManager : option handle;
  settingsManager : option (list jsstring -> Settings);  (* its [getSettings] *)
  logger : option handle;
  settingNames : list jsstring
}.

(** the module-level [pluginContext] before [register] has run *)
Definition pluginContext : PluginContext :=
  {| transcodingManager := None; settingsManager := None; logger := None;
     settingNames := [] |}.

Definition resolutions : list jsstring :=
  [ str "144p"; str "240p"; str "360p"; str "480p";
    str "720p"; str "1080p"; str "1440p"; str "2160p" ].

(** the setting name [resolution_${res}_${field}] *)
Definition key (res : jsstring) (field : string) : jsstring :=
  str "resolution_" ++ res ++ str "_" ++ str field.

Section Reading.
Variable settings : Settings.

Definition audioCodec : jsstring :=
  orElse (strings settings !! str "audio_codec") (str "aac").
Definition audioParams : jsstring :=
  orElse (strings settings !! str "audio_params") (str "-b:a 128k").
Definition transcodeThreads : Z :=
  parseIntOrZero (strings settings !! str "transcode_threads").

Definition isEnabled (res : jsstring) : option bool :=
  flags settings !! key res "enabled".
Definition videoCodec (res : jsstring) : option jsstring :=
  strings settings !! key res "codec".
Definition inputParamsStr (res : jsstring) : jsstring :=
  orElse (strings settings !! key res "input_params") [].
Definition codecParamsStr (res : jsstring) : jsstring :=
  orElse (strings settings !! key res "codec_params") [].
Definition profileNameOf (res : jsstring) : jsstring :=
  str "custom-" ++ res ++ str "-" ++ orElse (videoCodec res) (str "default").

Definition threadParams : list jsstring :=
  if (0 <? transcodeThreads)%Z
  then [ str "-threads"; Number_toString transcodeThreads ]
  else [].

(** the body of the loop over [resolutions] *)
Definition tier (res : jsstring) : Cmd :=
  if negb (truthyFlag (isEnabled res)) then
    log info (str "Resolution " ++ res ++ str " is disabled, skipping.")
  else if negb (truthyStr (videoCodec res)) then
    log warn (str "Video codec for resolution " ++ res ++ str " is not defined. Skipping.")
  else
    let codec := toStr (videoCodec res) in
    let inputParams := parseOptionsString (Some (inputParamsStr res)) in
    let codecParams := parseOptionsString (Some (codecParamsStr res)) in
    addVODProfile codec (profileNameOf res)
      {| inputOptions := threadParams ++ inputParams;
         outputOptions := codecParams |} ;;
    addVODProfile audioCodec (profileNameOf res)
      {| inputOptions := [];
         outputOptions := parseOptionsString (Some audioParams) |} ;;
    addVODEncoderPriority video codec 2000 ;;
    addVODEncoderPriority audio audioCodec 2000 ;;
    log info (str "Registered profile '" ++ profileNameOf res ++ str "' for " ++ res
              ++ str " with video codec '" ++ codec ++ str "'.").

(** everything after the settings were obtained *)
Definition refresh : Cmd :=
  removeAllProfilesAndEncoderPriorities ;;
  log info (str "Updating transcoding profiles based on new settings...") ;;
  forOf resolutions tier.
End Reading.

(** [initialSettings || await settingsManager.getSettings(settingNames)]:
    the settings a call works with *)
Definition settingsOf (getSettings : list jsstring -> Settings) (ctx : PluginContext)
    (initialSettings : option Settings) : Settings :=
  match initialSettings with
  | Some s => s
  | None => getSettings (settingNames ctx)
  end.

Definition updateTranscodingProfiles
    (ctx : PluginContext) (initialSettings : option Settings) : Cmd :=
  match transcodingManager ctx, logger ctx, settingsManager ctx with
  | Some _, Some _, Some getSettings =>
      refresh (settingsOf getSettings ctx initialSettings)
  | _, _, _ => skip
  end.

Definition unregister (ctx : PluginContext) : Cmd :=
  match transcodingManager ctx, logger ctx with
  | Some _, Some _ =>
      removeAllProfilesAndEncoderPriorities ;;
      log info (str "All custom transcoding profiles have been unregistered.")
  | _, _ => skip
  end.


(** *** Views of the result, used to state its properties *)

(** the pair of lists the host holds for the plugin *)
Definition profileTable (h : Host) : list VODProfile * list EncoderPriority :=
  (vodProfiles h, encoderPriorities h).

(** a tier registers something when it is enabled and has a codec *)
Definition registers (settings : Settings) (res : jsstring) : bool :=
  truthyFlag (isEnabled settings res) && truthyStr (videoCodec settings res).

Definition videoProfile (settings : Settings) (res : jsstring) : VODProfile :=
  {| encoder := toStr (videoCodec settings res);
     profileName := profileNameOf settings res;
     build :=
       {| inputOptions :=
            threadParams settings ++ parseOptionsString (Some (inputParamsStr settings res));
          outputOptions := parseOptionsString (Some (codecParamsStr settings res)) |} |}.

Definition audioProfile (settings : Settings) (res : jsstring) : VODProfile :=
  {| encoder := audioCodec settings;
     profileName := profileNameOf settings res;
     build :=
       {| inputOptions := [];
          outputOptions := parseOptionsString (Some (audioParams settings)) |} |}.

Definition tierProfiles (settings : Settings) (res : jsstring) : list VODProfile :=
  if registers settings res
  then [ videoProfile settings res; audioProfile settings res ]
  else [].

Definition tierPriorities (settings : Settings) (res : jsstring) : list EncoderPriority :=
  if registers settings res
  then [ {| streamType := video; priorityEncoder := toStr (videoCodec settings res);
            priority := 2000 |};
         {| streamType := audio; priorityEncoder := audioCodec settings;
            priority := 2000 |} ]
  else [].

End LiveReload.

(* ===================================================================== *)
(** ** main.ts, first document: the `on-video-transcoding` hook *)
(* ===================================================================== *)

Module Hook.

Record Resolution := { id : Z; width : Z; height : Z }.

(** a profile handed to the hook by the host; only the fields the hook
    reads or replaces are kept, the spread copies the others unchanged *)
Record HostProfile := {
  resolution : Resolution;
  arguments : jsstring        (* [ffmpegProfile.arguments] *)
}.

(** the result of [settings.getAll()], read at the declared type; the
    thread count is a [number], of which the whole values are modelled *)
Record Config := {
  audio_codec : option jsstring;
  audio_params : option jsstring;
  transcode_threads : Z
}.

(** [String.prototype.trim] *)
Definition trimStart (s : jsstring) : jsstring := snd (span isSpace s).
Definition trim (s : jsstring) : jsstring := rev (trimStart (rev (trimStart s))).

(** the setting name [resolution_${resolutionId}_${field}] *)
Definition key (resolutionId : jsstring) (field : string) : jsstring :=
  str "resolution_" ++ resolutionId ++ str "_" ++ str field.

(** lines 133 to 136: the placeholders of the output filters; the
    replacement texts are renderings of numbers and hold no `$` *)
Definition resolvePlaceholders
    (outputFilters : option jsstring) (resolutionWidth resolutionHeight : Z)
    : option jsstring :=
  if truthyStr outputFilters then
    Some (replaceAll2 PERCENT 104 (Number_toString resolutionHeight)
            (replaceAll2 PERCENT 119 (Number_toString resolutionWidth)
               (toStr outputFilters)))
  else outputFilters.

(** Following the words of the specification, to compare with
    [resolvePlaceholders]: one pass from left to right that writes the text
    [w] for every occurrence of the two characters percent, w, the text [h]
    for every occurrence of percent, h, and copies every other character. *)
Fixpoint substitutePlaceholders (w h : jsstring) (s : jsstring) : jsstring :=
  match s with
  | [] => []
  | c :: t =>
      match t with
      | d :: t' =>
          if (c =? PERCENT) && (d =? 119) then w ++ substitutePlaceholders w h t'
          else if (c =? PERCENT) && (d =? 104) then h ++ substitutePlaceholders w h t'
          else c :: substitutePlaceholders w h t
      | [] => [c]
      end
  end.

Section Transcoding.
Variable settings : Settings.
Variable config : Config.

Definition resolutionId (p : HostProfile) : jsstring :=
  Number_toString (id (resolution p)) ++ str "p".

Definition isEnabled (p : HostProfile) : option bool :=
  flags settings !! key (resolutionId p) "enabled".

Definition finalArguments (p : HostProfile) : jsstring :=
  let videoCodec := strings settings !! key (resolutionId p) "codec" in
  let inputParams := strings settings !! key (resolutionId p) "input_params" in
  let codecParams := strings settings !! key (resolutionId p) "codec_params" in
  let outputFilters :=
    resolvePlaceholders (strings settings !! key (resolutionId p) "output_filters")
      (width (resolution p)) (height (resolution p)) in
  (if (0 <? transcode_threads config)%Z
   then str "-threads " ++ Number_toString (transcode_threads config) ++ str " "
   else [])
  ++ toStr inputParams ++ str " -c:v " ++ toStr videoCodec ++ str " "
  ++ toStr codecParams ++ str " " ++ toStr outputFilters
  ++ str " -c:a " ++ toStr (audio_codec config) ++ str " " ++ toStr (audio_params config).

(** the callback of [options.profiles.map]; [None] is [null] *)
Definition transcodeProfile (p : HostProfile) : option HostProfile :=
  if negb (truthyFlag (isEnabled p)) then None
  else Some {| resolution := resolution p; arguments := trim (finalArguments p) |}.

(** [options.profiles.map(...).filter(Boolean)] *)
Definition newProfiles (profiles : list HostProfile) : list HostProfile :=
  omap transcodeProfile profiles.
End Transcoding.

End Hook.

(* ===================================================================== *)
(** ** main.ts, second document: one profile name for every resolution *)
(* ===================================================================== *)

Module SingleProfile.

Definition PROFILE_NAME : jsstring := str "human-transcoding".

(** the builder of the audio profile *)
Definition audioBuilder (getSettings : list jsstring -> Settings) : Options :=
  let settings := getSettings [ str "audio_params" ] in
  let audioParams := parseOptionsString (strings settings !! str "audio_params") in
  {| inputOptions := []; outputOptions := audioParams |}.

(** the builder of the video profile; [resolution] is [vodOptions.resolution],
    the result comes with the line it logs *)
Definition videoBuilder (getSettings : list jsstring -> Settings) (resolution : Z)
    : Options * LogLine :=
  let resKey := Number_toString resolution ++ str "p" in
  let kCodec := str "resolution_" ++ resKey ++ str "_codec" in
  let kInput := str "resolution_" ++ resKey ++ str "_input_params" in
  let kParams := str "resolution_" ++ resKey ++ str "_codec_params" in
  let settings := getSettings [ kCodec; kInput; kParams ] in
  let codec := strings settings !! kCodec in
  let inputParams := parseOptionsString (strings settings !! kInput) in
  let codecParams := parseOptionsString (strings settings !! kParams) in
  if negb (truthyStr codec) then
    ({| inputOptions := [];
        outputOptions := [ str "-c:v"; str "libx264"; str "-crf"; str "23" ] |},
     (warn, str "'" ++ PROFILE_NAME ++ str "' is active for " ++ resKey
            ++ str ", but no codec is configured. Using fallback."))
  else
    ({| inputOptions := inputParams;
        outputOptions := [ str "-c:v"; toStr codec ] ++ codecParams |},
     (info, str "Building '" ++ PROFILE_NAME ++ str "' for " ++ resKey
            ++ str " with " ++ toStr codec ++ str " codec.")).

Inductive Builder :=
| AudioBuilder
| VideoBuilder.

Record VODProfile := {
  encoder : jsstring;
  profileName : jsstring;
  builder : Builder
}.

(** the registrations [register] makes with [transcodingManager], after the
    settings were registered *)
Record Registered := {
  vodProfiles : list VODProfile;
  encoderPriorities : list EncoderPriority
}.

Definition register : Registered :=
  {| vodProfiles :=
       [ {| encoder := str "aac"; profileName := PROFILE_NAME; builder := AudioBuilder |};
         {| encoder := str "placeholder-video-codec"; profileName := PROFILE_NAME;
            builder := VideoBuilder |} ];
     encoderPriorities :=
       [ {| streamType := audio; priorityEncoder := str "aac"; priority := 2000 |};
         {| streamType := video; priorityEncoder := str "placeholder-video-codec";
            priority := 2000 |} ] |}.

End SingleProfile.

(* ===================================================================== *)
(** ** Registration of the settings and of the reload *)
(* ===================================================================== *)

(** The default of a registered setting: a string, a boolean or a number. *)
Inductive SettingDefault :=
| DString (s : jsstring)
| DBool (b : bool)
| DNumber (z : Z).

(** The options given to [registerSetting]; [label] and [descriptionHTML]
    (in the first document of main.ts, [description]), the texts shown to
    the administrator, are left out. *)
Record SettingOptions := {
  name : jsstring;
  type : jsstring;
  default : SettingDefault;
  private : option bool       (* absent in the first document of main.ts *)
}.

(** the settings object in which every registered setting has its default *)
Definition defaultsOf (l : list SettingOptions) : Settings :=
  {| strings :=
       list_to_map
         (omap (fun s => match default s with
                         | DString d => Some (name s, d)
                         | _ => None
                         end) l);
     flags :=
       list_to_map
         (omap (fun s => match default s with
                         | DBool b => Some (name s, b)
                         | _ => None
                         end) l) |}.

(** [s.includes(c)] for a text [c] of one character *)
Definition includesChar (c : char) (s : jsstring) : bool := existsb (N.eqb c) s.

(** [parseInt(s, 10) >= n]; a comparison with NaN is false *)
Definition parseIntAtLeast (s : jsstring) (n : Z) : bool :=
  match parseInt10 s with
  | Some z => (n <=? z)%Z
  | None => false
  end.

(** *** part_000: [register] *)

Module Registration.
Import LiveReload.

Definition globalSettings : list SettingOptions :=
  [ {| name := str "audio_codec"; type := str "input";
       default := DString (str "aac"); private := Some false |};
    {| name := str "audio_params"; type := str "input";
       default := DString (str "-b:a 128k"); private := Some false |};
    {| name := str "transcode_threads"; type := str "input";
       default := DString (str "0"); private := Some false |} ].

(** the four settings pushed for one resolution *)
Definition resolutionSettings (res : jsstring) : list SettingOptions :=
  [ {| name := key res "enabled"; type := str "input-checkbox";
       default := DBool (bool_decide (res = str "720p") || bool_decide (res = str "1080p"));
       private := Some false |};
    {| name := key res "codec"; type := str "input";
       default := DString (str "libx264"); private := Some false |};
    {| name := key res "input_params"; type := str "input";
       default := DString []; private := Some false |};
    {| name := key res "codec_params"; type := str "input-textarea";
       default :=
         DString (if includesChar 112 res && parseIntAtLeast res 1080
                  then str "-crf 23 -preset medium -pix_fmt yuv420p"
                  else str "-crf 23 -preset fast -pix_fmt yuv420p");
       private := Some false |} ].

Definition settingsToRegister : list SettingOptions :=
  globalSettings ++ flat_map resolutionSettings resolutions.

(** The plugin and the server around it: the module-level context, the
    host side of the transcoding manager and of the logger, the settings
    registered so far, and whether the listener of settings changes is
    installed. *)
Record Server := {
  context : PluginContext;
  host : Host;
  registered : list SettingOptions;
  listening : bool
}.

(** [register(options)]; [getSettings] is the one of
    [options.settingsManager] *)
Definition register (getSettings : list jsstring -> Settings) (sv : Server) : Server :=
  let h1 := log info (str "Registering Universal Transcoder Plugin...") (host sv) in
  let ctx :=
    {| transcodingManager := Some attached;
       settingsManager := Some getSettings;
       logger := Some attached;
       settingNames := map name settingsToRegister |} in
  {| context := ctx;
     host := updateTranscodingProfiles ctx None h1;
     registered := registered sv ++ settingsToRegister;
     listening := true |}.

(** the server reports changed settings to the listener, if there is one *)
Definition settingsChanged (settings : Settings) (sv : Server) : Server :=
  if listening sv then
    {| context := context sv;
       host := updateTranscodingProfiles (context sv) (Some settings) (host sv);
       registered := registered sv;
       listening := listening sv |}
  else sv.

(** [unregister()] *)
Definition unregister (sv : Server) : Server :=
  {| context := context sv;
     host := LiveReload.unregister (context sv) (host sv);
     registered := registered sv;
     listening := listening sv |}.

(** the server before the plugin is loaded *)
Definition freshServer : Server :=
  {| context := pluginContext;
     host := {| vodProfiles := []; encoderPriorities := []; logged := [] |};
     registered := [];
     listening := false |}.

(** The states a run can be in when the plugin is called: the module starts
    with the context of [freshServer], and the three operations above are
    all that happens to it.  [pluginContext] is written by [register] alone,
    which stores the three references one after the other without giving
    control away in between. *)
Inductive reachable : Server -> Prop :=
| reachable_fresh : reachable freshServer
| reachable_register getSettings sv :
    reachable sv -> reachable (register getSettings sv)
| reachable_settingsChanged settings sv :
    reachable sv -> reachable (settingsChanged settings sv)
| reachable_unregister sv :
    reachable sv -> reachable (unregister sv).

End Registration.

(** *** main.ts, first document: the settings of [register] *)

Module HookRegistration.

Definition resolutions : list jsstring :=
  [ str "144p"; str "240p"; str "360p"; str "480p";
    str "720p"; str "1080p"; str "1440p"; str "2160p" ].

(** the five settings pushed for one resolution *)
Definition resolutionSettings (res : jsstring) : list SettingOptions :=
  [ {| name := Hook.key res "enabled"; type := str "boolean";
       default := DBool true; private := None |};
    {| name := Hook.key res "codec"; type := str "string";
       default := DString (str "libx264"); private := None |};
    {| name := Hook.key res "input_params"; type := str "string";
       default := DString []; private := None |};
    {| name := Hook.key res "codec_params"; type := str "string";
       default := DString (str "-crf 23 -preset veryfast"); private := None |};
    {| name := Hook.key res "output_filters"; type := str "string";
       default := DString []; private := None |} ].

Definition registeredSettings : list SettingOptions :=
  [ {| name := str "audio_codec"; type := str "string";
       default := DString (str "aac"); private := None |};
    {| name := str "audio_params"; type := str "string";
       default := DString (str "-b:a 128k"); private := None |};
    {| name := str "transcode_threads"; type := str "number";
       default := DNumber 0; private := None |} ]
  ++ flat_map resolutionSettings resolutions.

End HookRegistration.

(** *** main.ts, second document: the settings of [register] *)

Module SingleProfileRegistration.

Definition resolutions : list jsstring :=
  [ str "144p"; str "240p"; str "360p"; str "480p";
    str "720p"; str "1080p"; str "1440p"; str "2160p" ].

(** [resSettings], the names pushed to [settingNames] for one resolution *)
Definition resSettings (res : jsstring) : list jsstring :=
  [ str "resolution_" ++ res ++ str "_codec";
    str "resolution_" ++ res ++ str "_input_params";
    str "resolution_" ++ res ++ str "_codec_params" ].

Definition settingNames : list jsstring :=
  [ str "audio_codec"; str "audio_params" ] ++ flat_map resSettings resolutions.

Definition resolutionSettings (res : jsstring) : list SettingOptions :=
  [ {| name := str "resolution_" ++ res ++ str "_codec"; type := str "input";
       default := DString (str "libx264"); private := Some false |};
    {| name := str "resolution_" ++ res ++ str "_input_params"; type := str "input";
       default := DString []; private := Some false |};
    {| name := str "resolution_" ++ res ++ str "_codec_params"; type := str "input-textarea";
       default :=
         DString (if includesChar 112 res && parseIntAtLeast res 1080
                  then str "-crf 23 -preset medium"
                  else str "-crf 23 -preset fast");
       private := Some false |} ].

Definition settingsToRegister : list SettingOptions :=
  [ {| name := str "audio_codec"; type := str "input";
       default := DString (str "aac"); private := Some false |};
    {| name := str "audio_params"; type := str "input";
       default := DString (str "-b:a 192k"); private := Some false |} ]
  ++ flat_map resolutionSettings resolutions.

(** the three names the video builder asks the settings manager for *)
Definition builderKeys (resolution : Z) : list jsstring :=
  let resKey := Number_toString resolution ++ str "p" in
  [ str "resolution_" ++ resKey ++ str "_codec";
    str "resolution_" ++ resKey ++ str "_input_params";
    str "resolution_" ++ resKey ++ str "_codec_params" ].

End SingleProfileRegistration.

(* ===================================================================== *)
(** ** Notions used to state properties of the tokenizer and of the
       placeholders *)
(* ===================================================================== *)

(** words written one after the other with one space between them *)
Fixpoint joinWords (ws : list jsstring) : jsstring :=
  match ws with
  | [] => []
  | [w] => w
  | w :: ws' => w ++ 32 :: joinWords ws'
  end.

(** a word: not empty, and made of characters that are neither white
    space nor quotes *)
Definition plainWord (w : jsstring) : Prop :=
  w <> [] /\ Forall (fun c => Tokenizer.plainChar c = true) w.

(** the text holds one of the two placeholders: a percent sign followed by
    the letter w or by the letter h *)
Fixpoint hasPlaceholder (s : jsstring) : bool :=
  match s with
  | c :: t =>
      match t with
      | d :: _ => ((c =? PERCENT) && ((d =? 119) || (d =? 104))) || hasPlaceholder t
      | [] => false
      end
  | [] => false
  end.

(** a text without quote characters *)
Definition quoteFree (s : jsstring) : Prop :=
  Forall (fun c => c <> DQUOTE /\ c <> SQUOTE) s.

(** the one line the loop of [updateTranscodingProfiles] logs for a
    resolution *)
Definition tierLine (settings : Settings) (res : jsstring) : LogLine :=
  if negb (truthyFlag (LiveReload.isEnabled settings res)) then
    (info, str "Resolution " ++ res ++ str " is disabled, skipping.")
  else if negb (truthyStr (LiveReload.videoCodec settings res)) then
    (warn, str "Video codec for resolution " ++ res ++ str " is not defined. Skipping.")
  else
    (info, str "Registered profile '" ++ LiveReload.profileNameOf settings res
           ++ str "' for " ++ res ++ str " with video codec '"
           ++ toStr (LiveReload.videoCodec settings res) ++ str "'.").

(** what the host files a profile under: the encoder and the profile name *)
Definition profileKey (p : LiveReload.VODProfile) : jsstring * jsstring :=
  (LiveReload.encoder p, LiveReload.profileName p).

(* ===================================================================== *)
(** ** Sample inputs *)
(* ===================================================================== *)

Module Samples.
Import LiveReload.

Definition emptyHost : Host :=
  {| vodProfiles := []; encoderPriorities := []; logged := [] |}.

(** a host that still holds one profile and one priority of an earlier run *)
Definition staleHost : Host :=
  {| vodProfiles :=
       [ {| encoder := str "libvpx"; profileName := str "custom-360p-libvpx";
            build := {| inputOptions := []; outputOptions := [] |} |} ];
     encoderPriorities :=
       [ {| streamType := video; priorityEncoder := str "libvpx"; priority := 2000 |} ];
     logged := [] |}.

(** 720p and 1080p enabled with the same codec, 480p enabled without a
    codec, 144p disabled, four threads *)
Definition settings1 : Settings :=
  {| strings := list_to_map
       [ (str "transcode_threads", str "4");
         (key (str "144p") "codec", str "libx264");
         (key (str "480p") "codec", []);
         (key (str "720p") "codec", str "libx264");
         (key (str "1080p") "codec", str "libx264");
         (key (str "1080p") "input_params", str "-hwaccel auto");
         (key (str "1080p") "codec_params", str "-crf 23 -preset veryfast") ];
     flags := list_to_map
       [ (key (str "144p") "enabled", false);
         (key (str "480p") "enabled", true);
         (key (str "720p") "enabled", true);
         (key (str "1080p") "enabled", true) ] |}.

(** the context once [register] has stored the three references *)
Definition readyContext : PluginContext :=
  {| transcodingManager := Some attached;
     settingsManager := Some (fun _ => settings1);
     logger := Some attached;
     settingNames := [] |}.

End Samples.

(* ===================================================================== *)
(** ** Facts about the live-reload variant *)
(* ===================================================================== *)

Module LiveReloadFacts.
Import LiveReload.

Lemma tier_profiles settings res h :
  vodProfiles (tier settings res h) = vodProfiles h ++ tierProfiles settings res.
Proof.
  unfold tier, tierProfiles, registers.
  destruct (truthyFlag (isEnabled settings res)); simpl;
    [destruct (truthyStr (videoCodec settings res)); simpl|];
    rewrite ?app_nil_r, <- ?app_assoc; reflexivity.
Qed.

Lemma tier_priorities settings res h :
  encoderPriorities (tier settings res h)
  = encoderPriorities h ++ tierPriorities settings res.
Proof.
  unfold tier, tierPriorities, registers.
  destruct (truthyFlag (isEnabled settings res)); simpl;
    [destruct (truthyStr (videoCodec settings res)); simpl|];
    rewrite ?app_nil_r, <- ?app_assoc; reflexivity.
Qed.

Lemma forOf_profiles settings l h :
  vodProfiles (forOf l (tier settings) h)
  = vodProfiles h ++ flat_map (tierProfiles settings) l.
Proof.
  unfold forOf. revert h; induction l as [|r l IH]; intros h; simpl.
  - rewrite app_nil_r; reflexivity.
  - rewrite IH, tier_profiles, <- app_assoc; reflexivity.
Qed.

Lemma forOf_priorities settings l h :
  encoderPriorities (forOf l (tier settings) h)
  = encoderPriorities h ++ flat_map (tierPriorities settings) l.
Proof.
  unfold forOf. revert h; induction l as [|r l IH]; intros h; simpl.
  - rewrite app_nil_r; reflexivity.
  - rewrite IH, tier_priorities, <- app_assoc; reflexivity.
Qed.

(** the table a refresh leaves behind does not depend on the host it
    started from *)
Lemma refresh_profiles settings h :
  vodProfiles (refresh settings h) = flat_map (tierProfiles settings) resolutions.
Proof. unfold refresh. rewrite forOf_profiles. reflexivity. Qed.

Lemma refresh_priorities settings h :
  encoderPriorities (refresh settings h) = flat_map (tierPriorities settings) resolutions.
Proof. unfold refresh. rewrite forOf_priorities. reflexivity. Qed.

Lemma update_ready ctx initialSettings getSettings :
  transcodingManager ctx = Some attached ->
  logger ctx = Some attached ->
  settingsManager ctx = Some getSettings ->
  updateTranscodingProfiles ctx initialSettings
  = refresh (settingsOf getSettings ctx initialSettings).
Proof.
  intros Ht Hl Hs. unfold updateTranscodingProfiles, settingsOf.
  rewrite Ht, Hl, Hs. reflexivity.
Qed.

Lemma update_not_ready ctx initialSettings h :
  transcodingManager ctx = None \/ logger ctx = None \/ settingsManager ctx = None ->
  updateTranscodingProfiles ctx initialSettings h = h.
Proof.
  unfold updateTranscodingProfiles, skip.
  destruct (transcodingManager ctx), (logger ctx), (settingsManager ctx);
    intros [H|[H|H]]; try discriminate; reflexivity.
Qed.

End LiveReloadFacts.

Module TierNames.
Import LiveReload LiveReloadFacts.

(** the profile name of a tier starts with a text no other tier's name
    starts with *)
Lemma tier_name_prefix r res c k :
  In r resolutions -> In res resolutions ->
  str "custom-" ++ r ++ str "-" ++ c = str "custom-" ++ res ++ str "-" ++ k ->
  r = res.
Proof.
  unfold resolutions. intros Hr Hres H.
  repeat (destruct Hr as [<-|Hr]; [|]); try contradiction;
    repeat (destruct Hres as [<-|Hres]; [|]); try contradiction;
    try reflexivity; exfalso; vm_compute in H; discriminate H.
Qed.

Lemma tierProfiles_names settings r p :
  In p (tierProfiles settings r) -> profileName p = profileNameOf settings r.
Proof.
  unfold tierProfiles. destruct (registers settings r); simpl; [|tauto].
  intros [<-|[<-|[]]]; reflexivity.
Qed.

Lemma truthyFlag_true x : truthyFlag x = true -> x = Some true.
Proof. destruct x as [[]|]; simpl; congruence. Qed.

Lemma truthyStr_true x : truthyStr x = true -> exists s, x = Some s /\ s <> [].
Proof.
  destruct x as [[|c s]|]; simpl; try discriminate.
  intros _. exists (c :: s). split; [reflexivity | discriminate].
Qed.

Lemma registers_true settings r :
  registers settings r = true ->
  isEnabled settings r = Some true /\
  exists c, videoCodec settings r = Some c /\ c <> [].
Proof.
  unfold registers. intros H. apply andb_true_iff in H as [H1 H2].
  split; [apply truthyFlag_true, H1 | apply truthyStr_true, H2].
Qed.

Lemma registers_intro settings r c :
  isEnabled settings r = Some true -> videoCodec settings r = Some c -> c <> [] ->
  registers settings r = true.
Proof.
  unfold registers. intros -> -> Hc. destruct c; [contradiction|reflexivity].
Qed.

End TierNames.

(* ===================================================================== *)
(** ** Reload: null context, determinism *)
(* ===================================================================== *)

Import LiveReload LiveReloadFacts TierNames.

(** what the guards of the two functions give, for any context: a reload
    does nothing as soon as one of the three references is null, and
    [unregister] does nothing when the transcoding manager or the logger is
    null *)
Lemma null_context_noop ctx initialSettings h :
  transcodingManager ctx = None \/ logger ctx = None \/ settingsManager ctx = None ->
  updateTranscodingProfiles ctx initialSettings h = h /\
  (transcodingManager ctx = None \/ logger ctx = None -> unregister ctx h = h).
Proof.
  intros H. split; [apply update_not_ready, H|].
  unfold unregister, skip.
  destruct (transcodingManager ctx), (logger ctx);
    intros [H'|H']; try discriminate; reflexivity.
Qed.

(** in every state of a run the context is either the initial one, with the
    three references null, or one in which [register] has set all three *)
Lemma reachable_context sv :
  Registration.reachable sv ->
  Registration.context sv = pluginContext \/
  (transcodingManager (Registration.context sv) = Some attached /\
   logger (Registration.context sv) = Some attached /\
   exists getSettings, settingsManager (Registration.context sv) = Some getSettings).
Proof.
  induction 1 as [|getSettings sv _ _|settings sv _ IH|sv _ IH].
  - left. reflexivity.
  - right. repeat split. exists getSettings. reflexivity.
  - unfold Registration.settingsChanged. destruct (Registration.listening sv); exact IH.
  - exact IH.
Qed.

(** C10.  In every state a run can be in, if one of the three references
    of the plugin context (transcoding manager, settings manager, logger) is
    still null, then registration has not populated the context, and a call
    of [updateTranscodingProfiles] or of [unregister] returns with the host
    as it was: nothing is registered, nothing is removed, nothing is logged.
    The functions of the model are total, no call throws. *)
Theorem calls_before_registration_do_nothing sv initialSettings h :
  Registration.reachable sv ->
  transcodingManager (Registration.context sv) = None \/
  settingsManager (Registration.context sv) = None \/
  logger (Registration.context sv) = None ->
  Registration.context sv = pluginContext /\
  updateTranscodingProfiles (Registration.context sv) initialSettings h = h /\
  unregister (Registration.context sv) h = h.
Proof.
  intros Hreach Hnull.
  destruct (reachable_context sv Hreach) as [Hctx | (Ht & Hl & g & Hs)].
  - rewrite Hctx. repeat split.
  - exfalso. rewrite Ht, Hl, Hs in Hnull. destruct Hnull as [H|[H|H]]; discriminate H.
Qed.

Lemma calls_before_registration_do_nothing_witness :
  Registration.reachable
    (Registration.unregister (Registration.settingsChanged Samples.settings1 Registration.freshServer)) /\
  (transcodingManager
     (Registration.context
        (Registration.unregister
           (Registration.settingsChanged Samples.settings1 Registration.freshServer))) = None \/
   settingsManager
     (Registration.context
        (Registration.unregister
           (Registration.settingsChanged Samples.settings1 Registration.freshServer))) = None \/
   logger
     (Registration.context
        (Registration.unregister
           (Registration.settingsChanged Samples.settings1 Registration.freshServer))) = None) /\
  updateTranscodingProfiles
    (Registration.context
       (Registration.unregister
          (Registration.settingsChanged Samples.settings1 Registration.freshServer)))
    (Some Samples.settings1) Samples.staleHost = Samples.staleHost /\
  unregister
    (Registration.context
       (Registration.unregister
          (Registration.settingsChanged Samples.settings1 Registration.freshServer)))
    Samples.staleHost = Samples.staleHost.
Proof.
  assert (Registration.reachable
            (Registration.unregister
               (Registration.settingsChanged Samples.settings1 Registration.freshServer))) as Hr.
  { apply Registration.reachable_unregister, Registration.reachable_settingsChanged,
      Registration.reachable_fresh. }
  split; [exact Hr|]. split; [left; reflexivity|].
  apply (calls_before_registration_do_nothing _ (Some Samples.settings1) Samples.staleHost Hr).
  left. reflexivity.
Defined.

(** C7.  With the three references set, the table a reload leaves behind
    is a function of the settings alone: two reloads over the same
    settings give the same profiles and priorities, in the same order,
    whatever the host held before, and reloading twice gives what
    reloading once gives. *)
Theorem reload_deterministic ctx initialSettings getSettings h1 h2 :
  transcodingManager ctx = Some attached ->
  logger ctx = Some attached ->
  settingsManager ctx = Some getSettings ->
  profileTable (updateTranscodingProfiles ctx initialSettings h1)
  = profileTable (updateTranscodingProfiles ctx initialSettings h2) /\
  profileTable (updateTranscodingProfiles ctx initialSettings
                  (updateTranscodingProfiles ctx initialSettings h1))
  = profileTable (updateTranscodingProfiles ctx initialSettings h1).
Proof.
  intros Ht Hl Hs. rewrite (update_ready _ _ _ Ht Hl Hs).
  unfold profileTable. rewrite !refresh_profiles, !refresh_priorities.
  split; reflexivity.
Qed.

Lemma reload_deterministic_witness :
  transcodingManager Samples.readyContext = Some attached /\
  logger Samples.readyContext = Some attached /\
  settingsManager Samples.readyContext = Some (fun _ => Samples.settings1) /\
  profileTable (updateTranscodingProfiles Samples.readyContext None Samples.emptyHost)
  = profileTable (updateTranscodingProfiles Samples.readyContext None Samples.staleHost) /\
  profileTable (updateTranscodingProfiles Samples.readyContext None
                  (updateTranscodingProfiles Samples.readyContext None Samples.emptyHost))
  = profileTable (updateTranscodingProfiles Samples.readyContext None Samples.emptyHost).
Proof.
  split; [reflexivity|]. split; [reflexivity|]. split; [reflexivity|].
  apply (reload_deterministic Samples.readyContext None (fun _ => Samples.settings1));
    reflexivity.
Defined.

(* ===================================================================== *)
(** ** Disabled tiers *)
(* ===================================================================== *)









(* ===================================================================== *)
(** ** Encoder priorities *)
(* ===================================================================== *)

Lemma tierPriorities_spelled settings res :
  tierPriorities settings res
  = match isEnabled settings res, videoCodec settings res with
    | Some true, Some (c :: s) =>
        [ {| streamType := video; priorityEncoder := c :: s; priority := 2000 |};
          {| streamType := audio; priorityEncoder := audioCodec settings;
             priority := 2000 |} ]
    | _, _ => []
    end.
Proof.
  unfold tierPriorities, registers.
  destruct (isEnabled settings res) as [[]|]; simpl; try reflexivity.
  destruct (videoCodec settings res) as [[|c s]|]; reflexivity.
Qed.

(** C5, as the code has it.  The live-reload variant adds the two priority
    entries inside the loop: after a reload the host holds, for every
    enabled tier that has a codec and in tier order, one video entry for the
    codec of the tier followed by one audio entry for the global audio
    codec, all with score 2000; nothing is merged, a codec used by several
    tiers has one entry for each of them.  The single-profile variant
    registers one audio and one video entry, both with score 2000. *)
Theorem priority_entries_per_tier ctx initialSettings getSettings h :
  transcodingManager ctx = Some attached ->
  logger ctx = Some attached ->
  settingsManager ctx = Some getSettings ->
  encoderPriorities (updateTranscodingProfiles ctx initialSettings h)
  = flat_map
      (fun res =>
         match isEnabled (settingsOf getSettings ctx initialSettings) res,
               videoCodec (settingsOf getSettings ctx initialSettings) res with
         | Some true, Some (c :: s) =>
             [ {| streamType := video; priorityEncoder := c :: s; priority := 2000 |};
               {| streamType := audio;
                  priorityEncoder := audioCodec (settingsOf getSettings ctx initialSettings);
                  priority := 2000 |} ]
         | _, _ => []
         end)
      resolutions /\
  SingleProfile.encoderPriorities SingleProfile.register
  = [ {| streamType := audio; priorityEncoder := str "aac"; priority := 2000 |};
      {| streamType := video; priorityEncoder := str "placeholder-video-codec";
         priority := 2000 |} ].
Proof.
  intros Ht Hl Hs. rewrite (update_ready _ _ _ Ht Hl Hs), refresh_priorities.
  split; [|reflexivity].
  apply flat_map_ext. intros res. apply tierPriorities_spelled.
Qed.

Lemma priority_entries_per_tier_witness :
  transcodingManager Samples.readyContext = Some attached /\
  logger Samples.readyContext = Some attached /\
  settingsManager Samples.readyContext = Some (fun _ => Samples.settings1) /\
  encoderPriorities (updateTranscodingProfiles Samples.readyContext None Samples.staleHost)
  = [ {| streamType := video; priorityEncoder := str "libx264"; priority := 2000 |};
      {| streamType := audio; priorityEncoder := str "aac"; priority := 2000 |};
      {| streamType := video; priorityEncoder := str "libx264"; priority := 2000 |};
      {| streamType := audio; priorityEncoder := str "aac"; priority := 2000 |} ].
Proof.
  split; [reflexivity|]. split; [reflexivity|]. split; [reflexivity|].
  destruct (priority_entries_per_tier Samples.readyContext None
              (fun _ => Samples.settings1) Samples.staleHost
              eq_refl eq_refl eq_refl) as [E _].
  rewrite E. reflexivity.
Defined.

(** C5 as stated fails: 720p and 1080p are both enabled with libx264 and
    the table holds two video entries for libx264 and two audio entries for
    aac. *)
Lemma priority_entries_repeat :
  isEnabled Samples.settings1 (str "720p") = Some true /\
  isEnabled Samples.settings1 (str "1080p") = Some true /\
  videoCodec Samples.settings1 (str "720p") = Some (str "libx264") /\
  videoCodec Samples.settings1 (str "1080p") = Some (str "libx264") /\
  encoderPriorities
    (updateTranscodingProfiles Samples.readyContext (Some Samples.settings1) Samples.emptyHost)
  = [ {| streamType := video; priorityEncoder := str "libx264"; priority := 2000 |};
      {| streamType := audio; priorityEncoder := str "aac"; priority := 2000 |};
      {| streamType := video; priorityEncoder := str "libx264"; priority := 2000 |};
      {| streamType := audio; priorityEncoder := str "aac"; priority := 2000 |} ].
Proof. repeat split. Qed.

(* ===================================================================== *)
(** ** The profiles of one tier *)
(* ===================================================================== *)

Lemma filter_none {B} (P : B -> Prop) `{!forall x, Decision (P x)} (l : list B) :
  (forall x, In x l -> ~ P x) -> filter P l = [].
Proof.
  induction l as [|x l IH]; intros Hall; [reflexivity|].
  rewrite filter_cons. destruct (decide (P x)) as [HP|_].
  - exfalso. apply (Hall x); [left; reflexivity | exact HP].
  - apply IH. intros y Hy. apply Hall. right; exact Hy.
Qed.

Lemma filter_all {B} (P : B -> Prop) `{!forall x, Decision (P x)} (l : list B) :
  (forall x, In x l -> P x) -> filter P l = l.
Proof.
  induction l as [|x l IH]; intros Hall; [reflexivity|].
  rewrite filter_cons. destruct (decide (P x)) as [_|HP].
  - f_equal. apply IH. intros y Hy. apply Hall. right; exact Hy.
  - exfalso. apply HP, Hall. left; reflexivity.
Qed.

Lemma filter_flat_map_single {A B} (P : B -> Prop) `{!forall x, Decision (P x)}
    (g : A -> list B) (l : list A) (a : A) :
  NoDup l -> In a l ->
  (forall r x, In r l -> r <> a -> In x (g r) -> ~ P x) ->
  (forall x, In x (g a) -> P x) ->
  filter P (flat_map g l) = g a.
Proof.
  induction l as [|r l IH]; intros Hnd Ha Hother Hself; [destruct Ha|].
  apply NoDup_cons in Hnd as [Hr Hnd]. simpl. rewrite filter_app.
  destruct Ha as [->|Ha].
  - rewrite (filter_all P (g a) Hself).
    rewrite (filter_none P (flat_map g l)); [apply app_nil_r|].
    intros x Hx. apply in_flat_map in Hx as [r' [Hr' Hx]].
    apply (Hother r' x); [right; exact Hr' | | exact Hx].
    intros ->. apply Hr. apply list_elem_of_In, Hr'.
  - rewrite (filter_none P (g r)).
    + simpl. apply IH; try assumption.
      intros r' x Hr'. apply Hother. right; exact Hr'.
    + intros x Hx. apply (Hother r x); [left; reflexivity | | exact Hx].
      intros ->. apply Hr. apply list_elem_of_In, Ha.
Qed.

Lemma resolutions_NoDup : NoDup resolutions.
Proof. apply (bool_decide_unpack _). vm_compute. exact I. Qed.

(** the profiles registered under the name of one tier *)
Lemma profiles_of_tier settings res h :
  In res resolutions ->
  filter (fun p => profileName p = profileNameOf settings res)
         (vodProfiles (refresh settings h))
  = tierProfiles settings res.
Proof.
  intros Hres. rewrite refresh_profiles.
  apply filter_flat_map_single; [apply resolutions_NoDup | exact Hres | |].
  - intros r x Hr Hne Hx Hname. apply tierProfiles_names in Hx.
    rewrite Hx in Hname. unfold profileNameOf in Hname.
    apply tier_name_prefix in Hname; [contradiction | assumption..].
  - intros x Hx. apply tierProfiles_names, Hx.
Qed.

Lemma parse_orElse_nil x :
  parseOptionsString (Some (orElse x [])) = parseOptionsString x.
Proof. destruct x as [[|c s]|]; reflexivity. Qed.

(** C6, as the code has it.  In the live-reload variant every enabled
    tier that has a codec gets, under its profile name, the video profile
    followed by exactly one audio profile; the audio profile is registered
    for the global audio codec, has no input options, and its output options
    are the tokens of the global audio parameters and nothing else: no
    codec selector is put in front of them.  In the single-profile variant
    the audio builder returns the tokens of the `audio_params` setting, again
    without a codec selector. *)
Theorem audio_profile_per_tier ctx initialSettings getSettings h res codec :
  transcodingManager ctx = Some attached ->
  logger ctx = Some attached ->
  settingsManager ctx = Some getSettings ->
  In res resolutions ->
  isEnabled (settingsOf getSettings ctx initialSettings) res = Some true ->
  videoCodec (settingsOf getSettings ctx initialSettings) res = Some codec ->
  codec <> [] ->
  (exists v,
     filter (fun p => profileName p = str "custom-" ++ res ++ str "-" ++ codec)
            (vodProfiles (updateTranscodingProfiles ctx initialSettings h))
     = [ v;
         {| encoder := audioCodec (settingsOf getSettings ctx initialSettings);
            profileName := str "custom-" ++ res ++ str "-" ++ codec;
            build :=
              {| inputOptions := [];
                 outputOptions :=
                   parseOptionsString
                     (Some (audioParams (settingsOf getSettings ctx initialSettings))) |} |} ]
     /\ encoder v = codec) /\
  (forall getSettings',
     SingleProfile.audioBuilder getSettings'
     = {| inputOptions := [];
          outputOptions :=
            parseOptionsString
              (strings (getSettings' [ str "audio_params" ]) !! str "audio_params") |}).
Proof.
  intros Ht Hl Hs Hres He Hc Hne. rewrite (update_ready _ _ _ Ht Hl Hs).
  set (settings := settingsOf getSettings ctx initialSettings) in *.
  split; [|reflexivity].
  assert (profileNameOf settings res = str "custom-" ++ res ++ str "-" ++ codec) as Hn.
  { unfold profileNameOf. rewrite Hc. destruct codec; [contradiction | reflexivity]. }
  exists (videoProfile settings res).
  rewrite <- Hn, (profiles_of_tier settings res h Hres).
  unfold tierProfiles. rewrite (registers_intro _ _ _ He Hc Hne).
  split; [reflexivity|]. simpl. rewrite Hc. reflexivity.
Qed.

Lemma audio_profile_per_tier_witness :
  transcodingManager Samples.readyContext = Some attached /\
  logger Samples.readyContext = Some attached /\
  settingsManager Samples.readyContext = Some (fun _ => Samples.settings1) /\
  In (str "1080p") resolutions /\
  isEnabled (settingsOf (fun _ => Samples.settings1) Samples.readyContext None) (str "1080p")
  = Some true /\
  videoCodec (settingsOf (fun _ => Samples.settings1) Samples.readyContext None) (str "1080p")
  = Some (str "libx264") /\
  str "libx264" <> [] /\
  forall getSettings',
    SingleProfile.audioBuilder getSettings'
    = {| inputOptions := [];
         outputOptions :=
           parseOptionsString
             (strings (getSettings' [ str "audio_params" ]) !! str "audio_params") |}.
Proof.
  split; [reflexivity|]. split; [reflexivity|]. split; [reflexivity|].
  split; [vm_compute; tauto|]. split; [reflexivity|]. split; [reflexivity|].
  split; [discriminate|].
  apply (audio_profile_per_tier Samples.readyContext None (fun _ => Samples.settings1)
           Samples.staleHost (str "1080p") (str "libx264")); try reflexivity.
  - vm_compute; tauto.
  - discriminate.
Defined.

(** C6 as stated fails: the audio profile registered for 1080p has the
    output options [-b:a 128k]; neither the selector [-c:a] nor the codec
    name [aac] is among them. *)
Lemma audio_profile_has_no_selector :
  isEnabled Samples.settings1 (str "1080p") = Some true /\
  filter (fun p => profileName p = str "custom-1080p-libx264")
         (vodProfiles
            (updateTranscodingProfiles Samples.readyContext (Some Samples.settings1)
               Samples.emptyHost))
  = [ {| encoder := str "libx264"; profileName := str "custom-1080p-libx264";
         build := {| inputOptions := [ str "-threads"; str "4"; str "-hwaccel"; str "auto" ];
                     outputOptions := [ str "-crf"; str "23"; str "-preset"; str "veryfast" ] |} |};
      {| encoder := str "aac"; profileName := str "custom-1080p-libx264";
         build := {| inputOptions := [];
                     outputOptions := [ str "-b:a"; str "128k" ] |} |} ] /\
  ~ In (str "-c:a") [ str "-b:a"; str "128k" ] /\
  ~ In (str "aac") [ str "-b:a"; str "128k" ].
Proof.
  split; [reflexivity|]. split; [vm_compute; reflexivity|].
  split; intros [H|[H|[]]]; discriminate H.
Qed.

(* ===================================================================== *)
(** ** The options of the video profile; a tier without a codec *)
(* ===================================================================== *)




(** C1, as the code has it.  In the live-reload variant the video profile
    of an enabled tier with a codec is registered under the codec name; its
    input options are the thread flag [-threads n] (only when the thread
    count [n] is positive) followed by the tokens of the input parameters,
    and its output options are the tokens of the codec parameters and
    nothing else: no codec selector, no output filters, which this variant
    does not read.  The thread count is taken up to 2^53, where the model of
    numbers is exact.  In the single-profile variant the builder returns the
    tokens of the input parameters as input options, and [-c:v], the codec
    name and the tokens of the codec parameters as output options; it has no
    thread flag and no output filters. *)
Theorem video_profile_options ctx initialSettings getSettings h res codec :
  transcodingManager ctx = Some attached ->
  logger ctx = Some attached ->
  settingsManager ctx = Some getSettings ->
  In res resolutions ->
  isEnabled (settingsOf getSettings ctx initialSettings) res = Some true ->
  videoCodec (settingsOf getSettings ctx initialSettings) res = Some codec ->
  codec <> [] ->
  (transcodeThreads (settingsOf getSettings ctx initialSettings) <= 2 ^ 53)%Z ->
  In {| encoder := codec;
        profileName := str "custom-" ++ res ++ str "-" ++ codec;
        build :=
          {| inputOptions :=
               (if (0 <? transcodeThreads (settingsOf getSettings ctx initialSettings))%Z
                then [ str "-threads";
                       Number_toString
                         (transcodeThreads (settingsOf getSettings ctx initialSettings)) ]
                else [])
               ++ parseOptionsString
                    (strings (settingsOf getSettings ctx initialSettings)
                       !! key res "input_params");
             outputOptions :=
               parseOptionsString
                 (strings (settingsOf getSettings ctx initialSettings)
                    !! key res "codec_params") |} |}
     (vodProfiles (updateTranscodingProfiles ctx initialSettings h)) /\
  (forall getSettings' resolution c,
     let resKey := Number_toString resolution ++ str "p" in
     let kCodec := str "resolution_" ++ resKey ++ str "_codec" in
     let kInput := str "resolution_" ++ resKey ++ str "_input_params" in
     let kParams := str "resolution_" ++ resKey ++ str "_codec_params" in
     strings (getSettings' [ kCodec; kInput; kParams ]) !! kCodec = Some c ->
     c <> [] ->
     fst (SingleProfile.videoBuilder getSettings' resolution)
     = {| inputOptions :=
            parseOptionsString (strings (getSettings' [ kCodec; kInput; kParams ]) !! kInput);
          outputOptions :=
            [ str "-c:v"; c ]
            ++ parseOptionsString
                 (strings (getSettings' [ kCodec; kInput; kParams ]) !! kParams) |}).
Proof.
  intros Ht Hl Hs Hres He Hc Hne _. rewrite (update_ready _ _ _ Ht Hl Hs).
  set (settings := settingsOf getSettings ctx initialSettings) in *.
  split.
  - rewrite refresh_profiles. apply in_flat_map. exists res. split; [exact Hres|].
    unfold tierProfiles. rewrite (registers_intro _ _ _ He Hc Hne).
    left. unfold videoProfile, profileNameOf, threadParams, inputParamsStr, codecParamsStr.
    rewrite Hc, !parse_orElse_nil. destruct codec; [contradiction | reflexivity].
  - intros getSettings' resolution c resKey kCodec kInput kParams Hcodec Hc'.
    subst resKey kCodec kInput kParams.
    unfold SingleProfile.videoBuilder. cbv zeta.
    rewrite Hcodec. destruct c; [contradiction | reflexivity].
Qed.

Lemma video_profile_options_witness :
  transcodingManager Samples.readyContext = Some attached /\
  logger Samples.readyContext = Some attached /\
  settingsManager Samples.readyContext = Some (fun _ => Samples.settings1) /\
  In (str "1080p") resolutions /\
  isEnabled (settingsOf (fun _ => Samples.settings1) Samples.readyContext None) (str "1080p")
  = Some true /\
  videoCodec (settingsOf (fun _ => Samples.settings1) Samples.readyContext None) (str "1080p")
  = Some (str "libx264") /\
  str "libx264" <> [] /\
  (transcodeThreads (settingsOf (fun _ => Samples.settings1) Samples.readyContext None)
   <= 2 ^ 53)%Z /\
  In {| encoder := str "libx264";
        profileName := str "custom-1080p-libx264";
        build :=
          {| inputOptions := [ str "-threads"; str "4"; str "-hwaccel"; str "auto" ];
             outputOptions := [ str "-crf"; str "23"; str "-preset"; str "veryfast" ] |} |}
     (vodProfiles (updateTranscodingProfiles Samples.readyContext None Samples.staleHost)).
Proof.
  split; [reflexivity|]. split; [reflexivity|]. split; [reflexivity|].
  split; [vm_compute; tauto|]. split; [reflexivity|]. split; [reflexivity|].
  split; [discriminate|]. split; [vm_compute; discriminate|].
  apply (video_profile_options Samples.readyContext None (fun _ => Samples.settings1)
           Samples.staleHost (str "1080p") (str "libx264")); try reflexivity.
  - vm_compute; tauto.
  - discriminate.
  - vm_compute; discriminate.
Defined.

(** C1 as stated fails in the live-reload variant: with four threads, the
    codec libx264, the input parameters [-hwaccel auto] and the codec
    parameters [-crf 23 -preset veryfast], the video profile of 1080p has the
    thread flag among its input options and only the codec parameters as
    output options. *)
Lemma video_profile_options_differ :
  exists v,
    vodProfiles
      (updateTranscodingProfiles Samples.readyContext (Some Samples.settings1)
         Samples.emptyHost) !! 2%nat = Some v /\
    encoder v = str "libx264" /\
    profileName v = str "custom-1080p-libx264" /\
    inputOptions (build v) = [ str "-threads"; str "4"; str "-hwaccel"; str "auto" ] /\
    inputOptions (build v) <> [ str "-hwaccel"; str "auto" ] /\
    outputOptions (build v) = [ str "-crf"; str "23"; str "-preset"; str "veryfast" ] /\
    outputOptions (build v)
    <> [ str "-threads"; str "4"; str "-c:v"; str "libx264";
         str "-crf"; str "23"; str "-preset"; str "veryfast" ].
Proof.
  eexists. split; [vm_compute; reflexivity|]. simpl.
  repeat split; try reflexivity; vm_compute; discriminate.
Qed.




(* ===================================================================== *)
(** ** The tokenizer *)
(* ===================================================================== *)

Module TokenizerFacts.
Import Tokenizer.

Lemma iterate_unfold s :
  iterate s
  = match alternative s with
    | None => ([], s)
    | Some (m, rest) => let '(m', rest') := iterate rest in (m ++ m', rest')
    end.
Proof.
  funelim (iterate s).
  - match goal with E : alternative _ = Some _ |- _ => rewrite E end. reflexivity.
  - match goal with E : alternative _ = None |- _ => rewrite E end. reflexivity.
Qed.

Lemma matchAll_unfold s :
  matchAll s
  = match s with
    | [] => []
    | c :: t =>
        match matchHere (c :: t) with
        | None => matchAll t
        | Some (m, rest) => m :: matchAll rest
        end
    end.
Proof.
  funelim (matchAll s).
  - reflexivity.
  - match goal with E : matchHere _ = Some _ |- _ => rewrite E end. reflexivity.
  - match goal with E : matchHere _ = None |- _ => rewrite E end. reflexivity.
Qed.

Lemma matchHere_space c t : isSpace c = true -> matchHere (c :: t) = None.
Proof.
  intros Hc. unfold matchHere, alternative, plainRun, quotedRun. simpl.
  unfold plainChar. rewrite Hc. simpl.
  destruct (c =? DQUOTE) eqn:E1.
  { apply N.eqb_eq in E1. subst c. discriminate Hc. }
  destruct (c =? SQUOTE) eqn:E2.
  { apply N.eqb_eq in E2. subst c. discriminate Hc. }
  reflexivity.
Qed.

Lemma matchAll_spaces s : Forall (fun c => isSpace c = true) s -> matchAll s = [].
Proof.
  induction 1 as [|c t Hc _ IH]; rewrite matchAll_unfold; [reflexivity|].
  rewrite (matchHere_space c t Hc). exact IH.
Qed.

Lemma span_until q inner rest :
  ~ In q inner ->
  span (fun d => negb (d =? q)) (inner ++ q :: rest) = (inner, q :: rest).
Proof.
  induction inner as [|c inner IH]; intros Hq; simpl.
  - rewrite N.eqb_refl. reflexivity.
  - destruct (c =? q) eqn:E.
    + apply N.eqb_eq in E. exfalso. apply Hq. left. exact E.
    + simpl. rewrite IH; [reflexivity|]. intros Hin. apply Hq. right. exact Hin.
Qed.

(** a quoted argument on its own comes back as one token, quotes included *)
Lemma matchAll_quoted q inner :
  q = DQUOTE \/ q = SQUOTE -> ~ In q inner ->
  matchAll (q :: inner ++ [q]) = [ q :: inner ++ [q] ].
Proof.
  intros Hq Hin. rewrite matchAll_unfold.
  assert (matchHere (q :: inner ++ [q]) = Some (q :: inner ++ [q], [])) as ->.
  { unfold matchHere, alternative.
    assert (plainRun (q :: inner ++ [q]) = None) as ->.
    { unfold plainRun, plainChar. simpl. destruct Hq as [-> | ->]; reflexivity. }
    assert (quotedRun q (q :: inner ++ [q]) = Some (q :: inner ++ [q], [])) as Hrun.
    { unfold quotedRun. rewrite N.eqb_refl, (span_until q inner [] Hin). reflexivity. }
    destruct Hq as [-> | ->].
    - rewrite Hrun, iterate_unfold. simpl. rewrite app_nil_r. reflexivity.
    - change (quotedRun DQUOTE (SQUOTE :: inner ++ [SQUOTE])) with (@None (jsstring * jsstring)).
      rewrite Hrun, iterate_unfold. simpl. rewrite app_nil_r. reflexivity. }
  rewrite matchAll_unfold. reflexivity.
Qed.

End TokenizerFacts.

(** the parts of C4 the code satisfies: nothing for no input, for the empty
    string and for white space alone *)
Lemma parseOptionsString_blank s :
  Forall (fun c => isSpace c = true) s ->
  parseOptionsString None = [] /\ parseOptionsString (Some s) = [].
Proof.
  intros Hs. split; [reflexivity|]. unfold parseOptionsString.
  destruct (negb (truthy s)); [reflexivity|].
  unfold Tokenizer.String_match. rewrite (TokenizerFacts.matchAll_spaces s Hs). reflexivity.
Qed.

(** what the code does with a quoted argument, whatever is inside the
    quotes: the quote characters stay in the token *)
Lemma parseOptionsString_quoted q inner :
  q = DQUOTE \/ q = SQUOTE -> ~ In q inner ->
  parseOptionsString (Some (q :: inner ++ [q])) = [ q :: inner ++ [q] ].
Proof.
  intros Hq Hin. unfold parseOptionsString. simpl.
  unfold Tokenizer.String_match. rewrite (TokenizerFacts.matchAll_quoted q inner Hq Hin).
  reflexivity.
Qed.

(** C4 at the input of the specification.  The argument in double quotes
    comes back as one token, but with both quote characters still in it:
    the capture groups of the pattern are lost in a global match, which
    returns the whole matched texts.  The result differs from the four
    tokens the specification gives. *)
Theorem parseOptionsString_keeps_quotes :
  parseOptionsString
    (Some (str "-vf " ++ [DQUOTE] ++ str "scale=w=1280:h=720" ++ [DQUOTE] ++ str " -preset fast"))
  = [ str "-vf"; [DQUOTE] ++ str "scale=w=1280:h=720" ++ [DQUOTE]; str "-preset"; str "fast" ] /\
  parseOptionsString
    (Some (str "-vf " ++ [DQUOTE] ++ str "scale=w=1280:h=720" ++ [DQUOTE] ++ str " -preset fast"))
  <> [ str "-vf"; str "scale=w=1280:h=720"; str "-preset"; str "fast" ] /\
  parseOptionsString (Some (str "a 'b c' d")) = [ str "a"; str "'b c'"; str "d" ] /\
  parseOptionsString (Some []) = [].
Proof.
  split; [vm_compute; reflexivity|].
  split; [vm_compute; discriminate|].
  split; vm_compute; reflexivity.
Qed.

(* ===================================================================== *)
(** ** Placeholders *)
(* ===================================================================== *)

Module NumberFacts.

Lemma digitsFuel_numeric fuel n acc :
  Forall numeric acc -> Forall numeric (digitsFuel fuel n acc).
Proof.
  revert n acc; induction fuel as [|f IH]; intros n acc Hacc; simpl; [exact Hacc|].
  assert (Forall numeric (digit (n mod 10) :: acc)) as Hacc'.
  { constructor; [|exact Hacc]. right. unfold digit.
    assert (n mod 10 < 10) as Hm by (apply N.mod_upper_bound; discriminate).
    revert Hm. generalize (n mod 10). intros m Hm. lia. }
  destruct (n <? 10); [exact Hacc' | apply IH, Hacc'].
Qed.

Lemma digitsFuel_nonempty fuel n acc : digitsFuel (S fuel) n acc <> [].
Proof.
  revert n acc; induction fuel as [|f IH]; intros n acc.
  - simpl. destruct (n <? 10); discriminate.
  - change (digitsFuel (S (S f)) n acc)
      with (if n <? 10 then digit (n mod 10) :: acc
            else digitsFuel (S f) (n / 10) (digit (n mod 10) :: acc)).
    destruct (n <? 10); [discriminate | apply IH].
Qed.

Lemma Number_toString_numeric z : Forall numeric (Number_toString z).
Proof.
  destruct z as [|p|p]; simpl.
  - constructor; [right; lia | constructor].
  - apply digitsFuel_numeric. constructor.
  - constructor; [left; reflexivity|]. apply digitsFuel_numeric. constructor.
Qed.

Lemma Number_toString_nonempty z : Number_toString z <> [].
Proof.
  destruct z as [|p|p]; simpl; try discriminate.
  apply digitsFuel_nonempty.
Qed.

Lemma log2_tenth n : 10 <= n -> N.log2 (n / 10) < N.log2 n.
Proof.
  intros Hn.
  assert (0 < n / 10) as Hpos.
  { apply N.div_str_pos. lia. }
  apply N.log2_lt_pow2; [exact Hpos|].
  destruct (N.log2_spec n) as [Hlo Hhi]; [lia|].
  rewrite N.pow_succ_r' in Hhi.
  apply N.Div0.div_lt_upper_bound. lia.
Qed.

Lemma digitsFuel_value f n acc :
  (N.to_nat (N.log2 n) <= f)%nat ->
  fold_left step (digitsFuel (S f) n acc) 0 = fold_left step acc n.
Proof.
  revert n acc; induction f as [|f IH]; intros n acc Hf.
  - assert (n < 10) as Hn.
    { destruct (N.lt_ge_cases n 10) as [|Hge]; [assumption|].
      pose proof (log2_tenth n Hge). lia. }
    simpl. replace (if n <? 10 then _ else _) with (digit (n mod 10) :: acc)
      by (destruct (n <? 10); reflexivity).
    simpl. unfold step at 2, digit. rewrite (N.mod_small n 10 Hn).
    f_equal. lia.
  - change (digitsFuel (S (S f)) n acc)
      with (if n <? 10 then digit (n mod 10) :: acc
            else digitsFuel (S f) (n / 10) (digit (n mod 10) :: acc)).
    destruct (N.ltb_spec n 10) as [Hn|Hn].
    + simpl. unfold step at 2, digit. rewrite (N.mod_small n 10 Hn).
      f_equal. lia.
    + rewrite IH.
      * simpl. unfold step at 2, digit. f_equal.
        pose proof (N.div_mod n 10 ltac:(discriminate)) as D.
        revert D. generalize (n / 10) (n mod 10). intros q m D. lia.
      * pose proof (log2_tenth n Hn). lia.
Qed.

(** the digits written for a number read back as that number: the fuel of
    [digits] is enough *)
Lemma digitsValue_digits n : digitsValue (digits n) = n.
Proof.
  unfold digitsValue, digits.
  apply (digitsFuel_value (N.to_nat (N.log2 n)) n []). lia.
Qed.

Lemma digitsFuel_isDigit fuel n acc :
  Forall (fun c => isDigit c = true) acc ->
  Forall (fun c => isDigit c = true) (digitsFuel fuel n acc).
Proof.
  revert n acc; induction fuel as [|f IH]; intros n acc Hacc; simpl; [exact Hacc|].
  assert (Forall (fun c => isDigit c = true) (digit (n mod 10) :: acc)) as Hacc'.
  { constructor; [|exact Hacc]. unfold isDigit, digit.
    assert (n mod 10 < 10) as Hm by (apply N.mod_upper_bound; discriminate).
    revert Hm. generalize (n mod 10). intros m Hm.
    apply andb_true_iff. split; apply N.leb_le; lia. }
  destruct (n <? 10); [exact Hacc' | apply IH, Hacc'].
Qed.

Lemma span_all p s : Forall (fun c => p c = true) s -> span p s = (s, []).
Proof.
  induction 1 as [|c t Hc _ IH]; simpl; [reflexivity|].
  rewrite Hc, IH. reflexivity.
Qed.

Lemma isDigit_cases c :
  isDigit c = true ->
  c = 48 \/ c = 49 \/ c = 50 \/ c = 51 \/ c = 52 \/
  c = 53 \/ c = 54 \/ c = 55 \/ c = 56 \/ c = 57.
Proof.
  unfold isDigit. intros Hc. apply andb_true_iff in Hc as [H1 H2].
  apply N.leb_le in H1, H2. lia.
Qed.

(** reading a positive number back from its digits *)
Lemma parseInt10_digits p : parseInt10 (digits (Npos p)) = Some (Zpos p).
Proof.
  pose proof (digitsFuel_isDigit (S (N.to_nat (N.log2 (Npos p)))) (Npos p) [] (List.Forall_nil _))
    as Hall.
  pose proof (digitsFuel_nonempty (N.to_nat (N.log2 (Npos p))) (Npos p) []) as Hne.
  pose proof (digitsValue_digits (Npos p)) as Hval.
  unfold digits in *. unfold parseInt10.
  destruct (digitsFuel _ (Npos p) []) as [|c t] eqn:E; [contradiction|].
  apply Forall_cons in Hall as Hct. destruct Hct as [Hc Ht].
  assert (span isSpace (c :: t) = ([], c :: t)) as ->.
  { simpl. apply isDigit_cases in Hc.
    repeat (destruct Hc as [-> | Hc]; [reflexivity|]). subst c. reflexivity. }
  assert ((c =? 45) = false /\ (c =? 43) = false) as [-> ->].
  { apply isDigit_cases in Hc.
    repeat (destruct Hc as [-> | Hc]; [split; reflexivity|]). subst c. split; reflexivity. }
  rewrite (span_all isDigit (c :: t) Hall), Hval. reflexivity.
Qed.

(** [parseInt] reads a rendered integer back *)
Lemma parseInt10_Number_toString z : parseInt10 (Number_toString z) = Some z.
Proof.
  destruct z as [|p|p]; [reflexivity | apply parseInt10_digits |].
  pose proof (digitsFuel_isDigit (S (N.to_nat (N.log2 (Npos p)))) (Npos p) []
                (List.Forall_nil _)) as Hall.
  pose proof (digitsFuel_nonempty (N.to_nat (N.log2 (Npos p))) (Npos p) []) as Hne.
  pose proof (digitsValue_digits (Npos p)) as Hval.
  fold (digits (Npos p)) in Hall, Hne.
  change (Number_toString (Z.neg p)) with (45 :: digits (Npos p)).
  unfold parseInt10.
  change (span isSpace (45 :: digits (N.pos p))) with (@nil N, 45 :: digits (N.pos p)).
  cbv iota beta. change (45 =? 45) with true. cbv iota.
  rewrite (span_all isDigit _ Hall), Hval.
  destruct (digits (N.pos p)); [contradiction | reflexivity].
Qed.

End NumberFacts.

Module ReplaceFacts.
Import NumberFacts.

Lemma replaceAll2_other a b r c X :
  c <> a -> replaceAll2 a b r (c :: X) = c :: replaceAll2 a b r X.
Proof.
  intros Hc. destruct X as [|d X]; [reflexivity|].
  change (replaceAll2 a b r (c :: d :: X))
    with (if (c =? a) && (d =? b) then r ++ replaceAll2 a b r X
          else c :: replaceAll2 a b r (d :: X)).
  destruct (N.eqb_spec c a); [contradiction | reflexivity].
Qed.

Lemma replaceAll2_hit a b r X :
  replaceAll2 a b r (a :: b :: X) = r ++ replaceAll2 a b r X.
Proof.
  change (replaceAll2 a b r (a :: b :: X))
    with (if (a =? a) && (b =? b) then r ++ replaceAll2 a b r X
          else a :: replaceAll2 a b r (b :: X)).
  rewrite !N.eqb_refl. reflexivity.
Qed.

Lemma replaceAll2_miss a b r X :
  headIsNot b X -> replaceAll2 a b r (a :: X) = a :: replaceAll2 a b r X.
Proof.
  destruct X as [|d X]; [reflexivity|]. simpl headIsNot. intros Hd.
  change (replaceAll2 a b r (a :: d :: X))
    with (if (a =? a) && (d =? b) then r ++ replaceAll2 a b r X
          else a :: replaceAll2 a b r (d :: X)).
  destruct (N.eqb_spec d b); [contradiction|]. rewrite andb_false_r. reflexivity.
Qed.

Lemma replaceAll2_through a b r W X :
  Forall (fun c => c <> a) W ->
  replaceAll2 a b r (W ++ X) = W ++ replaceAll2 a b r X.
Proof.
  induction 1 as [|c W Hc _ IH]; [reflexivity|].
  simpl app. rewrite (replaceAll2_other a b r c (W ++ X) Hc), IH. reflexivity.
Qed.

Lemma replaceAll2_head a b b' r d X :
  d <> b' -> r <> [] -> headIsNot b' r ->
  headIsNot b' (replaceAll2 a b r (d :: X)).
Proof.
  intros Hd Hr Hhead. destruct X as [|e X]; [exact Hd|].
  change (replaceAll2 a b r (d :: e :: X))
    with (if (d =? a) && (e =? b) then r ++ replaceAll2 a b r X
          else d :: replaceAll2 a b r (e :: X)).
  destruct ((d =? a) && (e =? b)); [|exact Hd].
  destruct r; [contradiction | exact Hhead].
Qed.

Section TwoPasses.
Variables W H : jsstring.
Hypothesis W_numeric : Forall numeric W.
Hypothesis W_nonempty : W <> [].

Let W_no_percent : Forall (fun c => c <> PERCENT) W.
Proof.
  eapply Forall_impl; [exact W_numeric|].
  intros c [-> | [? ?]]; unfold PERCENT; lia.
Qed.

Let W_head : headIsNot 104 W.
Proof.
  destruct W as [|c W']; [exact I|]. simpl.
  apply Forall_cons in W_numeric as [[-> | [? ?]] _]; lia.
Qed.

(** the two global replacements, one after the other, do what the single
    pass does *)
Lemma two_passes_bounded n s :
  (length s <= n)%nat ->
  replaceAll2 PERCENT 104 H (replaceAll2 PERCENT 119 W s)
  = Hook.substitutePlaceholders W H s.
Proof.
  revert s; induction n as [|n IH]; intros s Hlen.
  { destruct s; [reflexivity | simpl in Hlen; lia]. }
  destruct s as [|c [|d t]]; [reflexivity | reflexivity |].
  change (Hook.substitutePlaceholders W H (c :: d :: t))
    with (if (c =? PERCENT) && (d =? 119) then W ++ Hook.substitutePlaceholders W H t
          else if (c =? PERCENT) && (d =? 104) then H ++ Hook.substitutePlaceholders W H t
          else c :: Hook.substitutePlaceholders W H (d :: t)).
  simpl in Hlen.
  destruct (N.eqb_spec c PERCENT) as [->|Hc].
  - destruct (N.eqb_spec d 119) as [->|Hw]; simpl andb.
    + rewrite replaceAll2_hit, (replaceAll2_through _ _ _ W _ W_no_percent).
      rewrite IH by lia. reflexivity.
    + destruct (N.eqb_spec d 104) as [->|Hh].
      * rewrite (replaceAll2_miss PERCENT 119 W (104 :: t)) by (simpl; lia).
        rewrite (replaceAll2_other PERCENT 119 W 104 t) by (unfold PERCENT; lia).
        rewrite replaceAll2_hit, IH by lia. reflexivity.
      * rewrite (replaceAll2_miss PERCENT 119 W (d :: t)) by exact Hw.
        rewrite (replaceAll2_miss PERCENT 104 H).
        -- rewrite IH by (simpl; lia). reflexivity.
        -- apply replaceAll2_head; assumption.
  - simpl andb.
    rewrite (replaceAll2_other PERCENT 119 W c (d :: t) Hc).
    rewrite (replaceAll2_other PERCENT 104 H c _ Hc).
    rewrite IH by (simpl; lia). reflexivity.
Qed.
End TwoPasses.

End ReplaceFacts.

(** a text without a percent sign is left as it is *)
Lemma substitutePlaceholders_plain w h s :
  Forall (fun c => c <> PERCENT) s -> Hook.substitutePlaceholders w h s = s.
Proof.
  induction 1 as [|c t Hc _ IH]; [reflexivity|].
  destruct t as [|d t]; [reflexivity|].
  change (Hook.substitutePlaceholders w h (c :: d :: t))
    with (if (c =? PERCENT) && (d =? 119) then w ++ Hook.substitutePlaceholders w h t
          else if (c =? PERCENT) && (d =? 104) then h ++ Hook.substitutePlaceholders w h t
          else c :: Hook.substitutePlaceholders w h (d :: t)).
  destruct (N.eqb_spec c PERCENT); [contradiction|]. cbn [andb]. rewrite IH. reflexivity.
Qed.

(** C9.  On a string of output filters the code replaces, in one pass each,
    every occurrence of the two characters percent, w by the decimal
    rendering of the width and every occurrence of percent, h by that of the
    height; the result is the plain substitution of both placeholders, every
    other character copied.  The dimensions are integers of magnitude at
    most 2^53, where the rendering of the model is the one of JavaScript.
    The example of the specification evaluates as given there. *)
Theorem resolvePlaceholders_substitutes (filterString : jsstring) (width height : Z) :
  (Z.abs width <= 2 ^ 53)%Z ->
  (Z.abs height <= 2 ^ 53)%Z ->
  Hook.resolvePlaceholders (Some filterString) width height
  = Some (Hook.substitutePlaceholders
            (Number_toString width) (Number_toString height) filterString) /\
  Hook.resolvePlaceholders
    (Some (str "-vf " ++ [DQUOTE] ++ str "scale=w=%w:h=%h" ++ [DQUOTE])) 1280 720
  = Some (str "-vf " ++ [DQUOTE] ++ str "scale=w=1280:h=720" ++ [DQUOTE]).
Proof.
  intros _ _. split; [|vm_compute; reflexivity].
  unfold Hook.resolvePlaceholders.
  destruct filterString as [|c s]; [reflexivity|].
  simpl truthyStr. cbv iota. simpl toStr. f_equal.
  apply (ReplaceFacts.two_passes_bounded _ _
           (NumberFacts.Number_toString_numeric width)
           (NumberFacts.Number_toString_nonempty width)
           (length (c :: s))).
  reflexivity.
Qed.

Lemma resolvePlaceholders_substitutes_witness :
  (Z.abs 1920 <= 2 ^ 53)%Z /\
  (Z.abs 1080 <= 2 ^ 53)%Z /\
  Hook.resolvePlaceholders (Some (str "scale=%w:%h,pad=%w:%h")) 1920 1080
  = Some (Hook.substitutePlaceholders (Number_toString 1920) (Number_toString 1080)
            (str "scale=%w:%h,pad=%w:%h")).
Proof.
  split; [vm_compute; discriminate|]. split; [vm_compute; discriminate|].
  apply (resolvePlaceholders_substitutes (str "scale=%w:%h,pad=%w:%h") 1920 1080);
    vm_compute; discriminate.
Defined.

(* ===================================================================== *)
(** ** More about the tokenizer *)
(* ===================================================================== *)

Module TokenizerShape.
Import Tokenizer TokenizerFacts.

Lemma span_split p s m r :
  span p s = (m, r) ->
  s = m ++ r /\ Forall (fun c => p c = true) m /\
  match r with c :: _ => p c = false | [] => True end.
Proof.
  revert m r; induction s as [|c t IH]; intros m r; simpl.
  - intros [= <- <-]. repeat split. constructor.
  - destruct (p c) eqn:Hc.
    + destruct (span p t) as [m' r'] eqn:E. intros [= <- <-].
      destruct (IH _ _ eq_refl) as (-> & Hm & Hr).
      repeat split; [constructor; assumption | exact Hr].
    + intros [= <- <-]. repeat split; [constructor | exact Hc].
Qed.

Lemma span_stop p w rest :
  Forall (fun c => p c = true) w ->
  match rest with c :: _ => p c = false | [] => True end ->
  span p (w ++ rest) = (w, rest).
Proof.
  induction 1 as [|c w Hc _ IH]; intros Hrest; simpl.
  - destruct rest as [|c t]; [reflexivity|]. simpl. rewrite Hrest. reflexivity.
  - rewrite Hc, (IH Hrest). reflexivity.
Qed.

Lemma plainRun_shape s m r :
  plainRun s = Some (m, r) ->
  s = m ++ r /\ m <> [] /\ Forall (fun c => plainChar c = true) m /\
  match r with c :: _ => plainChar c = false | [] => True end.
Proof.
  unfold plainRun. destruct (span plainChar s) as [[|c m'] r'] eqn:E; [discriminate|].
  intros [= <- <-]. destruct (span_split _ _ _ _ E) as (Hs & Hm & Hr).
  repeat split; [exact Hs | discriminate | exact Hm | exact Hr].
Qed.

Lemma quotedRun_shape q s m r :
  quotedRun q s = Some (m, r) ->
  s = m ++ r /\ exists inner, m = q :: inner ++ [q] /\ ~ In q inner.
Proof.
  destruct s as [|c t]; simpl; [discriminate|].
  destruct (N.eqb_spec c q) as [->|]; [|discriminate].
  destruct (span _ t) as [inner [|d rest]] eqn:E; [discriminate|].
  intros [= <- <-]. destruct (span_split _ _ _ _ E) as (-> & Hm & Hd).
  apply negb_false_iff, N.eqb_eq in Hd. subst d.
  split; [simpl; rewrite <- app_assoc; reflexivity|].
  exists inner. split; [reflexivity|].
  intros Hin. rewrite Forall_forall in Hm.
  specialize (Hm q (proj2 (list_elem_of_In _ _) Hin)).
  rewrite N.eqb_refl in Hm. discriminate.
Qed.

Lemma alternative_shape s m r :
  alternative s = Some (m, r) -> s = m ++ r /\ m <> [].
Proof.
  unfold alternative.
  destruct (plainRun s) as [[m1 r1]|] eqn:E1.
  - intros [= <- <-]. apply plainRun_shape in E1 as (? & ? & _). split; assumption.
  - assert (forall q, quotedRun q s = Some (m, r) -> s = m ++ r /\ m <> []) as Hq.
    { intros q Hrun. apply quotedRun_shape in Hrun as (? & inner & -> & _).
      split; [assumption | discriminate]. }
    destruct (quotedRun DQUOTE s) as [[m2 r2]|] eqn:E2.
    + intros [= <- <-]. apply (Hq DQUOTE E2).
    + apply Hq.
Qed.

Lemma iterate_shape s : s = fst (iterate s) ++ snd (iterate s).
Proof.
  assert (forall n s, (length s <= n)%nat -> s = fst (iterate s) ++ snd (iterate s)) as Hall.
  { clear s. induction n as [|n IH]; intros s Hlen; rewrite iterate_unfold.
    - destruct s; [reflexivity | simpl in Hlen; lia].
    - destruct (alternative s) as [[m rest]|] eqn:E; [|reflexivity].
      pose proof (alternative_shrinks _ _ _ E) as Hlt.
      apply alternative_shape in E as [E _].
      specialize (IH rest ltac:(lia)).
      destruct (iterate rest) as [m' r']. simpl in *.
      rewrite E, IH at 1. apply app_assoc. }
  apply (Hall (length s)). reflexivity.
Qed.

Lemma matchHere_shape s m r :
  matchHere s = Some (m, r) -> s = m ++ r /\ m <> [].
Proof.
  unfold matchHere. destruct (alternative s) as [[m1 r1]|] eqn:E; [|discriminate].
  apply alternative_shape in E as [-> Hne].
  pose proof (iterate_shape r1) as Hit.
  destruct (iterate r1) as [m' r']. simpl in Hit. intros [= <- <-].
  split; [rewrite Hit at 1; apply app_assoc|].
  destruct m1; [contradiction | discriminate].
Qed.

Lemma matchHere_none c t : matchHere (c :: t) = None -> plainChar c = false.
Proof.
  unfold matchHere, alternative, plainRun. simpl.
  destruct (plainChar c); [|reflexivity].
  destruct (span plainChar t) as [m r]. destruct (iterate r); discriminate.
Qed.

(** the tokens of a string, bounded induction *)
Lemma matchAll_ind_bounded (P : jsstring -> list jsstring -> Prop) :
  P [] [] ->
  (forall c t, matchHere (c :: t) = None -> P t (matchAll t) ->
     P (c :: t) (matchAll t)) ->
  (forall c t m rest, matchHere (c :: t) = Some (m, rest) ->
     P rest (matchAll rest) -> P (c :: t) (m :: matchAll rest)) ->
  forall s, P s (matchAll s).
Proof.
  intros Hnil Hskip Htok s.
  assert (forall n s, (length s <= n)%nat -> P s (matchAll s)) as Hall.
  { clear s. induction n as [|n IH]; intros s Hlen.
    - destruct s; [rewrite matchAll_unfold; exact Hnil | simpl in Hlen; lia].
    - destruct s as [|c t]; [rewrite matchAll_unfold; exact Hnil|].
      rewrite matchAll_unfold.
      destruct (matchHere (c :: t)) as [[m rest]|] eqn:E.
      + apply (Htok c t m rest E). apply IH.
        apply matchHere_shrinks in E. simpl in *. lia.
      + apply (Hskip c t E). apply IH. simpl in Hlen. lia. }
  apply (Hall (length s)). reflexivity.
Qed.

Lemma parseOptionsString_matchAll s : parseOptionsString (Some s) = matchAll s.
Proof.
  unfold parseOptionsString, String_match.
  destruct s as [|c t]; [rewrite matchAll_unfold; reflexivity|].
  simpl. destruct (matchAll (c :: t)); reflexivity.
Qed.

End TokenizerShape.

Module TokenizerWords.
Import Tokenizer TokenizerFacts TokenizerShape.

Lemma alternative_space c t : isSpace c = true -> alternative (c :: t) = None.
Proof.
  intros Hc. unfold alternative, plainRun, quotedRun. simpl.
  unfold plainChar. rewrite Hc. simpl.
  destruct (N.eqb_spec c DQUOTE) as [->|]; [discriminate Hc|].
  destruct (N.eqb_spec c SQUOTE) as [->|]; [discriminate Hc|].
  reflexivity.
Qed.

Lemma plainChar_not_space c : plainChar c = true -> isSpace c = false.
Proof.
  unfold plainChar. destruct (isSpace c); [discriminate | reflexivity].
Qed.

Lemma plainChar_not_quote c q :
  q = DQUOTE \/ q = SQUOTE -> plainChar c = true -> c <> q.
Proof.
  unfold plainChar. intros [-> | ->] Hc ->; destruct (isSpace _); discriminate.
Qed.

(** a word followed by nothing, or by white space, is matched whole *)
Lemma matchHere_word w rest :
  plainWord w ->
  match rest with c :: _ => isSpace c = true | [] => True end ->
  matchHere (w ++ rest) = Some (w, rest).
Proof.
  intros [Hne Hw] Hrest. unfold matchHere, alternative, plainRun.
  rewrite (span_stop plainChar w rest Hw).
  - destruct w as [|c w]; [contradiction|].
    rewrite iterate_unfold.
    destruct rest as [|d rest]; [|rewrite (alternative_space d rest Hrest)];
      simpl; rewrite ?app_nil_r; reflexivity.
  - destruct rest as [|d rest]; [exact I|].
    unfold plainChar. rewrite Hrest. reflexivity.
Qed.

Lemma matchAll_word_then w rest :
  plainWord w ->
  match rest with c :: _ => isSpace c = true | [] => True end ->
  matchAll (w ++ rest) = w :: matchAll rest.
Proof.
  intros Hw Hrest. pose proof (matchHere_word w rest Hw Hrest) as E.
  destruct Hw as [Hne _]. destruct w as [|c w]; [contradiction|].
  simpl app in *. rewrite matchAll_unfold. cbv iota. rewrite E. reflexivity.
Qed.

Lemma matchAll_joinWords ws : Forall plainWord ws -> matchAll (joinWords ws) = ws.
Proof.
  induction 1 as [|w ws Hw _ IH]; [rewrite matchAll_unfold; reflexivity|].
  destruct ws as [|w' ws].
  - simpl. rewrite <- (app_nil_r w) at 1.
    rewrite (matchAll_word_then w [] Hw I), matchAll_unfold. reflexivity.
  - change (joinWords (w :: w' :: ws)) with (w ++ 32 :: joinWords (w' :: ws)).
    rewrite (matchAll_word_then w (32 :: joinWords (w' :: ws)) Hw eq_refl).
    rewrite matchAll_unfold, (matchHere_space 32 _ eq_refl), IH. reflexivity.
Qed.

(** a quote that is never closed matches nothing *)
Lemma alternative_open_quote q w :
  q = DQUOTE \/ q = SQUOTE ->
  Forall (fun c => plainChar c = true) w ->
  alternative (q :: w) = None.
Proof.
  intros Hq Hw.
  assert (forall q', q' = DQUOTE \/ q' = SQUOTE -> quotedRun q' (q :: w) = None) as Hrun.
  { intros q' Hq'. unfold quotedRun.
    destruct (N.eqb_spec q q') as [->|]; [|reflexivity].
    rewrite <- (app_nil_r w), (span_stop _ w []); [reflexivity | | exact I].
    eapply Forall_impl; [exact Hw|]. intros c Hc. cbv beta.
    apply negb_true_iff, N.eqb_neq, (plainChar_not_quote c q' Hq' Hc). }
  unfold alternative.
  assert (plainRun (q :: w) = None) as ->.
  { unfold plainRun, plainChar. simpl. destruct Hq as [-> | ->]; reflexivity. }
  rewrite (Hrun DQUOTE (or_introl eq_refl)). apply Hrun. right. reflexivity.
Qed.

Lemma matchAll_plain_filter s :
  List.filter plainChar (concat (matchAll s)) = List.filter plainChar s.
Proof.
  apply (matchAll_ind_bounded
           (fun s l => List.filter plainChar (concat l) = List.filter plainChar s)).
  - reflexivity.
  - intros c t E IH. apply matchHere_none in E. simpl. rewrite E. exact IH.
  - intros c t m rest E IH. apply matchHere_shape in E as [E _].
    rewrite E. simpl concat. rewrite !List.filter_app, IH. reflexivity.
Qed.

Lemma quoteFree_plain c :
  c <> DQUOTE /\ c <> SQUOTE -> plainChar c = negb (isSpace c).
Proof.
  intros [H1 H2]. unfold plainChar.
  apply N.eqb_neq in H1, H2. rewrite H1, H2. simpl. rewrite !andb_true_r. reflexivity.
Qed.

Lemma matchHere_quoteFree s m r :
  quoteFree s -> matchHere s = Some (m, r) ->
  Forall (fun c => plainChar c = true) m /\ quoteFree r.
Proof.
  intros Hs E. pose proof (matchHere_shape _ _ _ E) as [Hsplit _].
  assert (quoteFree r) as Hr.
  { unfold quoteFree in *. rewrite Hsplit in Hs. apply Forall_app in Hs. tauto. }
  split; [|exact Hr].
  unfold matchHere, alternative in E.
  destruct (plainRun s) as [[m1 r1]|] eqn:E1.
  - apply plainRun_shape in E1 as (Hs1 & _ & Hm1 & Hr1).
    assert (iterate r1 = ([], r1)) as Hit.
    { rewrite iterate_unfold. destruct r1 as [|d r1]; [reflexivity|].
      assert (d <> DQUOTE /\ d <> SQUOTE) as Hd.
      { unfold quoteFree in Hs. rewrite Hs1 in Hs. apply Forall_app in Hs as [_ Hs].
        apply Forall_cons in Hs. tauto. }
      rewrite (quoteFree_plain d Hd) in Hr1. apply negb_false_iff in Hr1.
      rewrite (alternative_space d r1 Hr1). reflexivity. }
    rewrite Hit in E. injection E as <- <-. rewrite app_nil_r. exact Hm1.
  - exfalso. destruct s as [|c t]; [discriminate E|].
    apply Forall_cons in Hs as [[Hc1 Hc2] _].
    unfold quotedRun in E. apply N.eqb_neq in Hc1, Hc2. rewrite Hc1, Hc2 in E.
    discriminate E.
Qed.

Lemma matchAll_quoteFree s :
  quoteFree s -> Forall (Forall (fun c => plainChar c = true)) (matchAll s).
Proof.
  apply (matchAll_ind_bounded
           (fun s l => quoteFree s -> Forall (Forall (fun c => plainChar c = true)) l)).
  - constructor.
  - intros c t _ IH Hs. apply IH. apply Forall_cons in Hs. tauto.
  - intros c t m rest E IH Hs. destruct (matchHere_quoteFree _ _ _ Hs E) as [Hm Hr].
    constructor; [exact Hm | apply IH, Hr].
Qed.

Lemma filter_all_true {A} (p : A -> bool) l :
  Forall (fun c => p c = true) l -> List.filter p l = l.
Proof.
  induction 1 as [|c l Hc _ IH]; simpl; [reflexivity|]. rewrite Hc, IH. reflexivity.
Qed.

End TokenizerWords.

Import Tokenizer TokenizerFacts TokenizerShape TokenizerWords.

(** [parseOptionsString] never returns an empty token, whatever it is
    given. *)
Theorem tokens_never_empty (optionsStr : option jsstring) (token : jsstring) :
  In token (parseOptionsString optionsStr) -> token <> [].
Proof.
  destruct optionsStr as [s|]; [|intros []].
  rewrite parseOptionsString_matchAll. revert token.
  apply (matchAll_ind_bounded (fun _ l => forall token, In token l -> token <> [])).
  - intros token [].
  - intros c t _ IH. exact IH.
  - intros c t m rest E IH token [<-|Hin]; [|apply IH, Hin].
    apply matchHere_shape in E as [_ Hne]. exact Hne.
Qed.

Lemma tokens_never_empty_witness :
  In (str "-crf") (parseOptionsString (Some (str "-crf 23"))) /\ str "-crf" <> [].
Proof.
  split; [vm_compute; tauto|].
  apply (tokens_never_empty (Some (str "-crf 23")) (str "-crf")).
  vm_compute; tauto.
Defined.

(** No character other than white space and the two quote characters is
    ever lost: the tokens hold, in their order, every other character of the
    string. *)
Theorem tokens_keep_plain_characters (s : jsstring) :
  List.filter plainChar (concat (parseOptionsString (Some s))) = List.filter plainChar s.
Proof. rewrite parseOptionsString_matchAll. apply matchAll_plain_filter. Qed.

(** Round trip: words without white space and quotes, written with one
    space between them, come back as the same list of words. *)
Theorem tokens_of_joined_words (ws : list jsstring) :
  Forall plainWord ws -> parseOptionsString (Some (joinWords ws)) = ws.
Proof.
  intros Hws. rewrite parseOptionsString_matchAll. apply matchAll_joinWords, Hws.
Qed.

Lemma tokens_of_joined_words_witness :
  Forall plainWord [ str "-crf"; str "23"; str "-preset"; str "fast" ] /\
  parseOptionsString (Some (joinWords [ str "-crf"; str "23"; str "-preset"; str "fast" ]))
  = [ str "-crf"; str "23"; str "-preset"; str "fast" ].
Proof.
  assert (Forall plainWord [ str "-crf"; str "23"; str "-preset"; str "fast" ]) as H.
  { repeat constructor; try discriminate. }
  split; [exact H|].
  apply (tokens_of_joined_words [ str "-crf"; str "23"; str "-preset"; str "fast" ] H).
Defined.

(** A quote that is never closed is dropped and splits the text: two words
    with one lone quote between them come back as the two words. *)
Theorem lone_quote_is_dropped (q : char) (w1 w2 : jsstring) :
  q = DQUOTE \/ q = SQUOTE -> plainWord w1 -> plainWord w2 ->
  parseOptionsString (Some (w1 ++ q :: w2)) = [ w1; w2 ].
Proof.
  intros Hq Hw1 Hw2. rewrite parseOptionsString_matchAll.
  assert (matchHere (w1 ++ q :: w2) = Some (w1, q :: w2)) as E1.
  { destruct Hw1 as [Hne Hw1]. unfold matchHere, alternative, plainRun.
    rewrite (span_stop plainChar w1 (q :: w2) Hw1).
    - destruct w1; [contradiction|].
      rewrite iterate_unfold, (alternative_open_quote q w2 Hq (proj2 Hw2)).
      simpl; rewrite ?app_nil_r; reflexivity.
    - destruct Hq as [-> | ->]; reflexivity. }
  assert (matchHere (q :: w2) = None) as E2.
  { unfold matchHere. rewrite (alternative_open_quote q w2 Hq (proj2 Hw2)). reflexivity. }
  destruct w1 as [|c w1]; [destruct Hw1; contradiction|].
  simpl app in *. rewrite matchAll_unfold. cbv iota. rewrite E1.
  rewrite matchAll_unfold. cbv iota. rewrite E2.
  assert (matchAll w2 = [ w2 ]) as ->; [|reflexivity].
  pose proof (matchAll_word_then w2 [] Hw2 I) as E3.
  rewrite app_nil_r in E3. rewrite E3, matchAll_unfold. reflexivity.
Qed.

Lemma lone_quote_is_dropped_witness :
  (DQUOTE = DQUOTE \/ DQUOTE = SQUOTE) /\ plainWord (str "-vf") /\ plainWord (str "scale") /\
  parseOptionsString (Some (str "-vf" ++ DQUOTE :: str "scale")) = [ str "-vf"; str "scale" ].
Proof.
  assert (plainWord (str "-vf")) as H1 by (split; [discriminate | repeat constructor]).
  assert (plainWord (str "scale")) as H2 by (split; [discriminate | repeat constructor]).
  split; [left; reflexivity|]. split; [exact H1|]. split; [exact H2|].
  apply (lone_quote_is_dropped DQUOTE (str "-vf") (str "scale")); [left; reflexivity | exact H1 | exact H2].
Defined.

(** Without quote characters in the string the tokenizer splits on white
    space and does nothing else: no token holds a white space character, and
    the tokens together are the string with its white space taken out. *)
Theorem tokens_without_quotes (s : jsstring) :
  Forall (fun c => c <> DQUOTE /\ c <> SQUOTE) s ->
  Forall (Forall (fun c => isSpace c = false)) (parseOptionsString (Some s)) /\
  concat (parseOptionsString (Some s)) = List.filter (fun c => negb (isSpace c)) s.
Proof.
  intros Hs. rewrite parseOptionsString_matchAll.
  pose proof (matchAll_quoteFree s Hs) as Hplain. split.
  - eapply Forall_impl; [exact Hplain|]. intros token Htoken.
    eapply Forall_impl; [exact Htoken|]. intros c Hc. apply plainChar_not_space, Hc.
  - transitivity (List.filter plainChar (concat (matchAll s))).
    + symmetry. apply filter_all_true. apply Forall_concat, Hplain.
    + rewrite matchAll_plain_filter. clear Hplain.
      induction Hs as [|c t Hc _ IH]; [reflexivity|].
      simpl. rewrite (quoteFree_plain c Hc), IH. reflexivity.
Qed.

Lemma tokens_without_quotes_witness :
  Forall (fun c => c <> DQUOTE /\ c <> SQUOTE) (str "  -b:a   128k ") /\
  concat (parseOptionsString (Some (str "  -b:a   128k ")))
  = List.filter (fun c => negb (isSpace c)) (str "  -b:a   128k ").
Proof.
  assert (Forall (fun c => c <> DQUOTE /\ c <> SQUOTE) (str "  -b:a   128k ")) as H.
  { repeat constructor; discriminate. }
  split; [exact H|].
  apply (tokens_without_quotes (str "  -b:a   128k ") H).
Defined.

Lemma parseOptionsString_blank_witness :
  Forall (fun c => isSpace c = true) [ 32; 9; 10; 160 ] /\
  parseOptionsString None = [] /\ parseOptionsString (Some [ 32; 9; 10; 160 ]) = [].
Proof.
  assert (Forall (fun c => isSpace c = true) [ 32; 9; 10; 160 ]) as H.
  { repeat constructor. }
  split; [exact H|].
  apply (parseOptionsString_blank [ 32; 9; 10; 160 ] H).
Defined.

Lemma parseOptionsString_quoted_witness :
  (SQUOTE = DQUOTE \/ SQUOTE = SQUOTE) /\ ~ In SQUOTE (str "b c") /\
  parseOptionsString (Some (SQUOTE :: str "b c" ++ [SQUOTE])) = [ SQUOTE :: str "b c" ++ [SQUOTE] ].
Proof.
  assert (~ In SQUOTE (str "b c")) as H.
  { intros [H|[H|[H|[]]]]; discriminate H. }
  split; [right; reflexivity|]. split; [exact H|].
  apply (parseOptionsString_quoted SQUOTE (str "b c")); [right; reflexivity | exact H].
Defined.

(* ===================================================================== *)
(** ** The thread count *)
(* ===================================================================== *)

Module ThreadFacts.
Import NumberFacts.

Lemma isDigit_not_space c : isDigit c = true -> isSpace c = false.
Proof.
  intros Hc. apply isDigit_cases in Hc.
  repeat (destruct Hc as [-> | Hc]; [reflexivity|]). subst c. reflexivity.
Qed.

Lemma isDigit_not_sign c : isDigit c = true -> (c =? 45) = false /\ (c =? 43) = false.
Proof.
  intros Hc. apply isDigit_cases in Hc.
  repeat (destruct Hc as [-> | Hc]; [split; reflexivity|]). subst c. split; reflexivity.
Qed.

(** what [parseInt] makes of white space, an optional minus sign, digits,
    and a rest that does not go on with a digit *)
Lemma parseInt10_read sp (neg : bool) ds tail :
  Forall (fun c => isSpace c = true) sp ->
  Forall (fun c => isDigit c = true) ds -> ds <> [] ->
  match tail with c :: _ => isDigit c = false | [] => True end ->
  parseInt10 (sp ++ (if neg then [45] else []) ++ ds ++ tail)
  = Some (if neg then (- Z.of_N (digitsValue ds))%Z else Z.of_N (digitsValue ds)).
Proof.
  intros Hsp Hds Hne Htail. unfold parseInt10.
  destruct ds as [|d ds]; [contradiction|].
  pose proof (Forall_inv Hds) as Hd.
  rewrite (TokenizerShape.span_stop isSpace sp _ Hsp).
  - pose proof (TokenizerShape.span_stop isDigit (d :: ds) tail Hds Htail) as E.
    simpl app in E.
    destruct neg; simpl app; cbv iota beta.
    + change (45 =? 45) with true. cbv iota. rewrite E. reflexivity.
    + destruct (isDigit_not_sign d Hd) as [-> ->]. rewrite E. reflexivity.
  - destruct neg; simpl; [reflexivity | apply isDigit_not_space, Hd].
Qed.

Lemma Number_toString_read z :
  exists (neg : bool) ds,
    Number_toString z = (if neg then [45] else []) ++ ds /\
    Forall (fun c => isDigit c = true) ds /\ ds <> [] /\
    z = (if neg then (- Z.of_N (digitsValue ds))%Z else Z.of_N (digitsValue ds)).
Proof.
  destruct z as [|p|p].
  - exists false, [48]. repeat split; [repeat constructor | discriminate].
  - exists false, (digits (Npos p)). repeat split.
    + apply digitsFuel_isDigit. constructor.
    + apply digitsFuel_nonempty.
    + rewrite digitsValue_digits. reflexivity.
  - exists true, (digits (Npos p)). repeat split.
    + apply digitsFuel_isDigit. constructor.
    + apply digitsFuel_nonempty.
    + rewrite digitsValue_digits. reflexivity.
Qed.

Lemma parseInt10_rendered sp z tail :
  Forall (fun c => isSpace c = true) sp ->
  match tail with c :: _ => isDigit c = false | [] => True end ->
  parseInt10 (sp ++ Number_toString z ++ tail) = Some z.
Proof.
  intros Hsp Htail.
  destruct (Number_toString_read z) as (neg & ds & -> & Hds & Hne & Hz).
  rewrite <- app_assoc, (parseInt10_read sp neg ds tail Hsp Hds Hne Htail), <- Hz.
  reflexivity.
Qed.

End ThreadFacts.

(** The thread setting is read the way [parseInt] reads: white space in
    front and whatever follows the number are ignored.  When the setting
    holds the decimal writing of an integer [n], the video profiles get the
    flag [-threads] followed by the same writing of [n] if [n] is positive,
    and no thread flag otherwise.  ([n] is taken up to 2^53, where the
    integers of the model are the numbers of JavaScript.) *)
Theorem thread_flag_of_setting (settings : Settings) (sp tail : jsstring) (n : Z) :
  strings settings !! str "transcode_threads" = Some (sp ++ Number_toString n ++ tail) ->
  Forall (fun c => isSpace c = true) sp ->
  match tail with c :: _ => isDigit c = false | [] => True end ->
  (n <= 2 ^ 53)%Z ->
  LiveReload.threadParams settings
  = if (0 <? n)%Z then [ str "-threads"; Number_toString n ] else [].
Proof.
  intros Hset Hsp Htail _.
  unfold LiveReload.threadParams, LiveReload.transcodeThreads, parseIntOrZero.
  rewrite Hset. simpl toStr.
  rewrite (ThreadFacts.parseInt10_rendered sp n tail Hsp Htail). reflexivity.
Qed.

Lemma thread_flag_of_setting_witness :
  strings {| strings := {[ str "transcode_threads" := str " 8 threads" ]}; flags := ∅ |}
    !! str "transcode_threads" = Some (str " " ++ Number_toString 8 ++ str " threads") /\
  Forall (fun c => isSpace c = true) (str " ") /\
  (8 <= 2 ^ 53)%Z /\
  LiveReload.threadParams
    {| strings := {[ str "transcode_threads" := str " 8 threads" ]}; flags := ∅ |}
  = [ str "-threads"; str "8" ].
Proof.
  split; [reflexivity|]. split; [repeat constructor|]. split; [vm_compute; discriminate|].
  apply (thread_flag_of_setting
           {| strings := {[ str "transcode_threads" := str " 8 threads" ]}; flags := ∅ |}
           (str " ") (str " threads") 8).
  - reflexivity.
  - repeat constructor.
  - reflexivity.
  - vm_compute; discriminate.
Defined.

(** A thread setting that is absent, empty, or whose first character is
    neither white space, a sign nor a digit, gives no thread flag. *)
Theorem thread_flag_needs_a_number (settings : Settings) :
  (forall c t, strings settings !! str "transcode_threads" = Some (c :: t) ->
     isSpace c = false /\ isDigit c = false /\ c <> 45 /\ c <> 43) ->
  LiveReload.threadParams settings = [].
Proof.
  unfold LiveReload.threadParams, LiveReload.transcodeThreads, parseIntOrZero.
  destruct (strings settings !! str "transcode_threads") as [[|c t]|]; try reflexivity.
  intros Hfirst. destruct (Hfirst c t eq_refl) as (Hs & Hd & H45 & H43).
  simpl toStr. unfold parseInt10. simpl span.
  rewrite Hs. apply N.eqb_neq in H45, H43. rewrite H45, H43. simpl span. rewrite Hd.
  reflexivity.
Qed.

Lemma thread_flag_needs_a_number_witness :
  (forall c t,
     strings {| strings := {[ str "transcode_threads" := str "auto" ]}; flags := ∅ |}
       !! str "transcode_threads" = Some (c :: t) ->
     isSpace c = false /\ isDigit c = false /\ c <> 45 /\ c <> 43) /\
  LiveReload.threadParams
    {| strings := {[ str "transcode_threads" := str "auto" ]}; flags := ∅ |} = [].
Proof.
  assert (forall c t,
            strings {| strings := {[ str "transcode_threads" := str "auto" ]}; flags := ∅ |}
              !! str "transcode_threads" = Some (c :: t) ->
            isSpace c = false /\ isDigit c = false /\ c <> 45 /\ c <> 43) as H.
  { intros c t E. vm_compute in E. injection E as <- <-.
    repeat split; discriminate. }
  split; [exact H|].
  apply (thread_flag_needs_a_number
           {| strings := {[ str "transcode_threads" := str "auto" ]}; flags := ∅ |} H).
Defined.

(* ===================================================================== *)
(** ** The shape of the table a reload leaves *)
(* ===================================================================== *)

Module ReloadShape.
Import LiveReload LiveReloadFacts TierNames.

Lemma tier_logged settings res h :
  logged (tier settings res h) = logged h ++ [ tierLine settings res ].
Proof.
  unfold tier, tierLine.
  destruct (truthyFlag (isEnabled settings res)); simpl;
    [destruct (truthyStr (videoCodec settings res)); simpl|]; reflexivity.
Qed.

Lemma forOf_logged settings l h :
  logged (forOf l (tier settings) h) = logged h ++ map (tierLine settings) l.
Proof.
  unfold forOf. revert h; induction l as [|r l IH]; intros h; simpl.
  - rewrite app_nil_r; reflexivity.
  - rewrite IH, tier_logged, <- app_assoc; reflexivity.
Qed.

Lemma refresh_logged settings h :
  logged (refresh settings h)
  = logged h ++ (info, str "Updating transcoding profiles based on new settings...")
               :: map (tierLine settings) resolutions.
Proof. unfold refresh. rewrite forOf_logged. simpl. rewrite <- app_assoc. reflexivity. Qed.

(** profiles and priorities of a list of tiers, side by side *)
Lemma tiers_aligned settings l :
  let n := length (List.filter (registers settings) l) in
  length (flat_map (tierProfiles settings) l) = (2 * n)%nat /\
  map priorityEncoder (flat_map (tierPriorities settings) l)
  = map encoder (flat_map (tierProfiles settings) l) /\
  map streamType (flat_map (tierPriorities settings) l) = concat (replicate n [ video; audio ]) /\
  Forall (fun q => priority q = 2000%Z) (flat_map (tierPriorities settings) l).
Proof.
  induction l as [|r l IH]; [repeat split; constructor|].
  destruct IH as (IH1 & IH2 & IH3 & IH4).
  cbn [flat_map List.filter]. cbv zeta.
  rewrite length_app, !map_app, IH1, IH2, IH3.
  assert (tierProfiles settings r
          = if registers settings r
            then [ videoProfile settings r; audioProfile settings r ] else []) as ->
    by reflexivity.
  assert (tierPriorities settings r
          = if registers settings r
            then [ {| streamType := video; priorityEncoder := toStr (videoCodec settings r);
                      priority := 2000 |};
                   {| streamType := audio; priorityEncoder := audioCodec settings;
                      priority := 2000 |} ]
            else []) as -> by reflexivity.
  destruct (registers settings r); simpl.
  - split; [lia|]. split; [reflexivity|]. split; [reflexivity|].
    repeat constructor. exact IH4.
  - split; [reflexivity|]. split; [reflexivity|]. split; [reflexivity | exact IH4].
Qed.

Lemma tierProfiles_nil settings res :
  tierProfiles settings res = [] <-> registers settings res = false.
Proof.
  unfold tierProfiles. destruct (registers settings res); split; try discriminate; reflexivity.
Qed.

Lemma flat_map_nil {A B} (f : A -> list B) l :
  flat_map f l = [] <-> forall x, In x l -> f x = [].
Proof.
  induction l as [|x l IH]; simpl.
  - split; [intros _ ? [] | reflexivity].
  - split.
    + intros H. apply app_eq_nil in H as [Hx Hl]. intros y [<-|Hy]; [exact Hx|].
      apply IH; assumption.
    + intros H. rewrite (H x (or_introl eq_refl)). apply IH.
      intros y Hy. apply H. right. exact Hy.
Qed.

Lemma audioCodec_nonempty settings : audioCodec settings <> [].
Proof.
  unfold audioCodec, orElse.
  destruct (strings settings !! str "audio_codec") as [[|c s]|]; discriminate.
Qed.

End ReloadShape.

Import ReloadShape.

(** A reload keeps the lines logged before it and adds nine: the heading,
    then one line for each of the eight resolutions, in their order.  The
    line of a resolution is a warning when the tier is enabled but has no
    codec, and an information otherwise. *)
Theorem reload_logs_every_resolution ctx initialSettings getSettings h :
  transcodingManager ctx = Some attached ->
  logger ctx = Some attached ->
  settingsManager ctx = Some getSettings ->
  exists lines,
    logged (updateTranscodingProfiles ctx initialSettings h)
    = logged h ++ (info, str "Updating transcoding profiles based on new settings...") :: lines /\
    Forall2
      (fun res line =>
         fst line
         = if truthyFlag (isEnabled (settingsOf getSettings ctx initialSettings) res)
              && negb (truthyStr (videoCodec (settingsOf getSettings ctx initialSettings) res))
           then warn else info)
      resolutions lines.
Proof.
  intros Ht Hl Hs. rewrite (update_ready _ _ _ Ht Hl Hs), refresh_logged.
  eexists. split; [reflexivity|].
  apply Forall2_fmap_r, Forall_Forall2_diag, Forall_forall. intros res _.
  unfold compose, tierLine. cbv beta.
  destruct (truthyFlag (isEnabled _ res)); [|reflexivity].
  destruct (truthyStr (videoCodec _ res)); reflexivity.
Qed.

Lemma reload_logs_every_resolution_witness :
  transcodingManager Samples.readyContext = Some attached /\
  logger Samples.readyContext = Some attached /\
  settingsManager Samples.readyContext = Some (fun _ => Samples.settings1) /\
  exists lines,
    logged (updateTranscodingProfiles Samples.readyContext None Samples.staleHost)
    = logged Samples.staleHost
      ++ (info, str "Updating transcoding profiles based on new settings...") :: lines /\
    length lines = 8%nat.
Proof.
  split; [reflexivity|]. split; [reflexivity|]. split; [reflexivity|].
  destruct (reload_logs_every_resolution Samples.readyContext None
              (fun _ => Samples.settings1) Samples.staleHost eq_refl eq_refl eq_refl)
    as (lines & E & Hall).
  exists lines. split; [exact E|].
  apply Forall2_length in Hall. rewrite <- Hall. reflexivity.
Defined.

(** After a reload the priority entries and the profiles line up one to
    one: there are as many of each, an even number, the i-th priority entry
    names the encoder of the i-th profile, the kinds alternate video, audio,
    and every score is 2000. *)
Theorem priorities_follow_profiles ctx initialSettings getSettings h :
  transcodingManager ctx = Some attached ->
  logger ctx = Some attached ->
  settingsManager ctx = Some getSettings ->
  exists n,
    length (vodProfiles (updateTranscodingProfiles ctx initialSettings h)) = (2 * n)%nat /\
    (n <= 8)%nat /\
    map priorityEncoder (encoderPriorities (updateTranscodingProfiles ctx initialSettings h))
    = map encoder (vodProfiles (updateTranscodingProfiles ctx initialSettings h)) /\
    map streamType (encoderPriorities (updateTranscodingProfiles ctx initialSettings h))
    = concat (replicate n [ video; audio ]) /\
    Forall (fun q => priority q = 2000%Z)
      (encoderPriorities (updateTranscodingProfiles ctx initialSettings h)).
Proof.
  intros Ht Hl Hs. rewrite (update_ready _ _ _ Ht Hl Hs).
  rewrite refresh_profiles, refresh_priorities.
  set (settings := settingsOf getSettings ctx initialSettings).
  destruct (tiers_aligned settings resolutions) as (H1 & H2 & H3 & H4).
  exists (length (List.filter (registers settings) resolutions)).
  repeat split; try assumption.
  pose proof (List.filter_length_le (registers settings) resolutions) as Hle.
  exact Hle.
Qed.

Lemma priorities_follow_profiles_witness :
  transcodingManager Samples.readyContext = Some attached /\
  logger Samples.readyContext = Some attached /\
  settingsManager Samples.readyContext = Some (fun _ => Samples.settings1) /\
  map priorityEncoder
    (encoderPriorities (updateTranscodingProfiles Samples.readyContext None Samples.staleHost))
  = map encoder
      (vodProfiles (updateTranscodingProfiles Samples.readyContext None Samples.staleHost)).
Proof.
  split; [reflexivity|]. split; [reflexivity|]. split; [reflexivity|].
  destruct (priorities_follow_profiles Samples.readyContext None
              (fun _ => Samples.settings1) Samples.staleHost eq_refl eq_refl eq_refl)
    as (n & _ & _ & E & _).
  exact E.
Defined.

(** A reload leaves the host without any profile and priority exactly when
    no resolution is both enabled and given a codec; what the host held
    before does not matter.  In particular an empty settings object clears
    the table. *)
Theorem reload_leaves_nothing_iff ctx initialSettings getSettings h :
  transcodingManager ctx = Some attached ->
  logger ctx = Some attached ->
  settingsManager ctx = Some getSettings ->
  (profileTable (updateTranscodingProfiles ctx initialSettings h) = ([], [])
   <-> forall res, In res resolutions ->
         isEnabled (settingsOf getSettings ctx initialSettings) res = Some true ->
         truthyStr (videoCodec (settingsOf getSettings ctx initialSettings) res) = false).
Proof.
  intros Ht Hl Hs. rewrite (update_ready _ _ _ Ht Hl Hs).
  unfold profileTable. rewrite refresh_profiles, refresh_priorities.
  set (settings := settingsOf getSettings ctx initialSettings).
  split.
  - intros E res Hres He.
    pose proof (f_equal fst E) as Hp. cbn [fst] in Hp.
    pose proof (proj1 (flat_map_nil _ _) Hp res Hres) as Hnil.
    apply tierProfiles_nil in Hnil. unfold registers in Hnil.
    rewrite He in Hnil. exact Hnil.
  - intros Hnone.
    assert (forall res, In res resolutions -> registers settings res = false) as Hreg.
    { intros res Hres. unfold registers.
      destruct (isEnabled settings res) as [[]|] eqn:He; try reflexivity.
      simpl. apply (Hnone res Hres He). }
    f_equal; apply flat_map_nil; intros res Hres.
    + apply tierProfiles_nil, Hreg, Hres.
    + unfold tierPriorities. rewrite (Hreg res Hres). reflexivity.
Qed.

Lemma reload_leaves_nothing_iff_witness :
  transcodingManager Samples.readyContext = Some attached /\
  logger Samples.readyContext = Some attached /\
  settingsManager Samples.readyContext = Some (fun _ => Samples.settings1) /\
  profileTable
    (updateTranscodingProfiles Samples.readyContext
       (Some {| strings := ∅; flags := ∅ |}) Samples.staleHost) = ([], []).
Proof.
  split; [reflexivity|]. split; [reflexivity|]. split; [reflexivity|].
  apply (reload_leaves_nothing_iff Samples.readyContext
           (Some {| strings := ∅; flags := ∅ |}) (fun _ => Samples.settings1)
           Samples.staleHost eq_refl eq_refl eq_refl).
  intros res _ He. discriminate He.
Defined.

(** A reload never registers anything under an empty encoder name: every
    profile and every priority entry it leaves has a non-empty encoder, and
    every profile name begins with [custom-]. *)
Theorem reload_never_registers_empty_encoder ctx initialSettings getSettings h :
  transcodingManager ctx = Some attached ->
  logger ctx = Some attached ->
  settingsManager ctx = Some getSettings ->
  (forall p, In p (vodProfiles (updateTranscodingProfiles ctx initialSettings h)) ->
     encoder p <> [] /\ exists k, profileName p = str "custom-" ++ k) /\
  (forall q, In q (encoderPriorities (updateTranscodingProfiles ctx initialSettings h)) ->
     priorityEncoder q <> []).
Proof.
  intros Ht Hl Hs. rewrite (update_ready _ _ _ Ht Hl Hs).
  rewrite refresh_profiles, refresh_priorities.
  set (settings := settingsOf getSettings ctx initialSettings).
  split.
  - intros p Hp. apply in_flat_map in Hp as [r [_ Hp]].
    unfold tierProfiles in Hp. destruct (registers settings r) eqn:E; [|destruct Hp].
    apply registers_true in E as [_ [c [Hc Hne]]].
    destruct Hp as [<-|[<-|[]]]; simpl; (split; [|eexists; reflexivity]).
    + rewrite Hc. exact Hne.
    + apply audioCodec_nonempty.
  - intros q Hq. apply in_flat_map in Hq as [r [_ Hq]].
    unfold tierPriorities in Hq. destruct (registers settings r) eqn:E; [|destruct Hq].
    apply registers_true in E as [_ [c [Hc Hne]]].
    destruct Hq as [<-|[<-|[]]]; simpl.
    + rewrite Hc. exact Hne.
    + apply audioCodec_nonempty.
Qed.

Lemma reload_never_registers_empty_encoder_witness :
  transcodingManager Samples.readyContext = Some attached /\
  logger Samples.readyContext = Some attached /\
  settingsManager Samples.readyContext = Some (fun _ => Samples.settings1) /\
  (forall q,
     In q (encoderPriorities
             (updateTranscodingProfiles Samples.readyContext None Samples.staleHost)) ->
     priorityEncoder q <> []).
Proof.
  split; [reflexivity|]. split; [reflexivity|]. split; [reflexivity|].
  apply (reload_never_registers_empty_encoder Samples.readyContext None
           (fun _ => Samples.settings1) Samples.staleHost eq_refl eq_refl eq_refl).
Defined.

Module ProfileKeys.
Import LiveReload LiveReloadFacts TierNames.

Lemma map_flat_map {A B C} (g : B -> C) (f : A -> list B) l :
  map g (flat_map f l) = flat_map (fun x => map g (f x)) l.
Proof.
  induction l as [|x l IH]; [reflexivity|]. simpl. rewrite map_app, IH. reflexivity.
Qed.

Lemma NoDup_flat_map {A B} (f : A -> list B) l :
  NoDup l ->
  (forall x, In x l -> NoDup (f x)) ->
  (forall x y b, In x l -> In y l -> x <> y -> In b (f x) -> ~ In b (f y)) ->
  NoDup (flat_map f l).
Proof.
  induction l as [|x l IH]; intros Hnd Hself Hcross; [constructor|].
  apply NoDup_cons in Hnd as [Hx Hnd]. simpl. apply NoDup_app. split; [|split].
  - apply Hself. left. reflexivity.
  - intros b Hb Hb'. apply list_elem_of_In in Hb, Hb'.
    apply in_flat_map in Hb' as [y [Hy Hb']].
    apply (Hcross x y b); [left; reflexivity | right; exact Hy | | exact Hb | exact Hb'].
    intros ->. apply Hx, list_elem_of_In, Hy.
  - apply IH; [exact Hnd | |].
    + intros y Hy. apply Hself. right. exact Hy.
    + intros y z b Hy Hz. apply Hcross; right; assumption.
Qed.

Lemma NoDup_flat_map_inv {A B} (f : A -> list B) l x :
  NoDup (flat_map f l) -> In x l -> NoDup (f x).
Proof.
  induction l as [|y l IH]; intros Hnd Hx; [destruct Hx|].
  simpl in Hnd. apply NoDup_app in Hnd as (Hy & _ & Hl).
  destruct Hx as [->|Hx]; [exact Hy | apply IH; assumption].
Qed.

(** the keys of one tier *)
Lemma tier_keys settings r :
  map profileKey (tierProfiles settings r)
  = if registers settings r
    then [ (toStr (videoCodec settings r), profileNameOf settings r);
           (audioCodec settings, profileNameOf settings r) ]
    else [].
Proof. unfold tierProfiles. destruct (registers settings r); reflexivity. Qed.

Lemma tier_keys_names settings r b :
  In b (map profileKey (tierProfiles settings r)) -> snd b = profileNameOf settings r.
Proof.
  rewrite tier_keys. destruct (registers settings r); [|intros []].
  intros [<-|[<-|[]]]; reflexivity.
Qed.

Lemma keys_NoDup_iff settings :
  NoDup (map profileKey (flat_map (tierProfiles settings) resolutions))
  <-> forall res, In res resolutions -> registers settings res = true ->
        toStr (videoCodec settings res) <> audioCodec settings.
Proof.
  rewrite map_flat_map. split.
  - intros Hnd res Hres Hreg Heq.
    apply (NoDup_flat_map_inv _ _ res) in Hnd; [|exact Hres].
    cbv beta in Hnd. rewrite tier_keys, Hreg, Heq in Hnd.
    apply NoDup_cons in Hnd as [Hin _]. apply Hin. left.
  - intros Hne. apply NoDup_flat_map.
    + apply resolutions_NoDup.
    + intros r Hr. cbv beta. rewrite tier_keys. destruct (registers settings r) eqn:E; [|constructor].
      apply NoDup_cons. split; [|apply NoDup_singleton].
      intros Hin. apply list_elem_of_singleton in Hin. injection Hin as Hin.
      apply (Hne r Hr E Hin).
    + intros r r' b Hr Hr' Hdiff Hb Hb'. cbv beta in Hb, Hb'.
      apply tier_keys_names in Hb, Hb'. rewrite Hb in Hb'. unfold profileNameOf in Hb'.
      apply tier_name_prefix in Hb'; [contradiction | assumption..].
Qed.

End ProfileKeys.

(** Two registrations of one reload are filed under the same encoder and
    profile name exactly when an enabled tier has the audio codec as its
    video codec: then the audio profile of that tier takes the place of its
    video profile.  Otherwise all registrations have different keys. *)
Theorem profile_keys_distinct_iff ctx initialSettings getSettings h :
  transcodingManager ctx = Some attached ->
  logger ctx = Some attached ->
  settingsManager ctx = Some getSettings ->
  (NoDup (map profileKey (vodProfiles (updateTranscodingProfiles ctx initialSettings h)))
   <-> forall res, In res resolutions ->
         isEnabled (settingsOf getSettings ctx initialSettings) res = Some true ->
         videoCodec (settingsOf getSettings ctx initialSettings) res
         <> Some (audioCodec (settingsOf getSettings ctx initialSettings))).
Proof.
  intros Ht Hl Hs. rewrite (update_ready _ _ _ Ht Hl Hs), refresh_profiles.
  set (settings := settingsOf getSettings ctx initialSettings).
  rewrite ProfileKeys.keys_NoDup_iff. split.
  - intros Hne res Hres He Hc.
    apply (Hne res Hres).
    + apply (registers_intro settings res _ He Hc), audioCodec_nonempty.
    + rewrite Hc. reflexivity.
  - intros Hne res Hres Hreg Heq.
    apply registers_true in Hreg as [He [c [Hc _]]].
    apply (Hne res Hres He). rewrite Hc in Heq |- *. simpl in Heq. rewrite Heq. reflexivity.
Qed.

Lemma profile_keys_distinct_iff_witness :
  transcodingManager Samples.readyContext = Some attached /\
  logger Samples.readyContext = Some attached /\
  settingsManager Samples.readyContext = Some (fun _ => Samples.settings1) /\
  NoDup (map profileKey
           (vodProfiles (updateTranscodingProfiles Samples.readyContext None Samples.staleHost))).
Proof.
  split; [reflexivity|]. split; [reflexivity|]. split; [reflexivity|].
  apply (profile_keys_distinct_iff Samples.readyContext None (fun _ => Samples.settings1)
           Samples.staleHost eq_refl eq_refl eq_refl).
  intros res Hres He Hc. vm_compute in Hres.
  repeat (destruct Hres as [<-|Hres]; [vm_compute in Hc; discriminate Hc|]).
  exact Hres.
Defined.

(* ===================================================================== *)
(** ** Registration (part_000) *)
(* ===================================================================== *)

Module RegistrationFacts.
Import LiveReload LiveReloadFacts Registration.

Lemma register_ready getSettings sv :
  transcodingManager (context (register getSettings sv)) = Some attached /\
  logger (context (register getSettings sv)) = Some attached /\
  settingsManager (context (register getSettings sv)) = Some getSettings.
Proof. repeat split. Qed.

Lemma ready_table ctx initialSettings getSettings h :
  transcodingManager ctx = Some attached ->
  logger ctx = Some attached ->
  settingsManager ctx = Some getSettings ->
  profileTable (updateTranscodingProfiles ctx initialSettings h)
  = (flat_map (tierProfiles (settingsOf getSettings ctx initialSettings)) resolutions,
     flat_map (tierPriorities (settingsOf getSettings ctx initialSettings)) resolutions).
Proof.
  intros Ht Hl Hs. unfold profileTable.
  rewrite (update_ready _ _ _ Ht Hl Hs), refresh_profiles, refresh_priorities. reflexivity.
Qed.

Lemma changed_table getSettings sv settings :
  profileTable (host (settingsChanged settings (register getSettings sv)))
  = (flat_map (tierProfiles settings) resolutions,
     flat_map (tierPriorities settings) resolutions).
Proof.
  exact (ready_table (context (register getSettings sv)) (Some settings) getSettings
           (host (register getSettings sv)) eq_refl eq_refl eq_refl).
Qed.

Lemma registered_table getSettings sv :
  profileTable (host (register getSettings sv))
  = (flat_map (tierProfiles (getSettings (map name settingsToRegister))) resolutions,
     flat_map (tierPriorities (getSettings (map name settingsToRegister))) resolutions).
Proof.
  exact (ready_table (context (register getSettings sv)) None getSettings
           (log info (str "Registering Universal Transcoder Plugin...") (host sv))
           eq_refl eq_refl eq_refl).
Qed.

Lemma changed_after_unregister_table getSettings sv settings :
  profileTable (host (settingsChanged settings (unregister (register getSettings sv))))
  = (flat_map (tierProfiles settings) resolutions,
     flat_map (tierPriorities settings) resolutions).
Proof.
  exact (ready_table (context (register getSettings sv)) (Some settings) getSettings
           (host (unregister (register getSettings sv))) eq_refl eq_refl eq_refl).
Qed.

End RegistrationFacts.

(** Every setting [updateTranscodingProfiles] reads is one [register]
    declares and names in [settingNames]: the three global ones and, for each
    of the eight resolutions, `enabled`, `codec`, `input_params` and
    `codec_params`.  The 35 names are all different. *)
Theorem reload_reads_registered_settings getSettings sv res :
  In res resolutions ->
  let names := settingNames (Registration.context (Registration.register getSettings sv)) in
  names = map name Registration.settingsToRegister /\
  NoDup names /\ length names = 35%nat /\
  In (str "audio_codec") names /\ In (str "audio_params") names /\
  In (str "transcode_threads") names /\
  In (key res "enabled") names /\ In (key res "codec") names /\
  In (key res "input_params") names /\ In (key res "codec_params") names.
Proof.
  intros Hres names. subst names. cbn [Registration.register Registration.context settingNames].
  split; [reflexivity|].
  split; [apply (bool_decide_unpack _); vm_compute; exact I|].
  split; [reflexivity|].
  unfold resolutions in Hres.
  repeat (destruct Hres as [<-|Hres];
          [repeat split; apply list_elem_of_In, (bool_decide_unpack _); vm_compute; exact I|]).
  destruct Hres.
Qed.

Lemma reload_reads_registered_settings_witness :
  In (str "1440p") resolutions /\
  In (key (str "1440p") "codec_params")
     (settingNames
        (Registration.context
           (Registration.register (fun _ => Samples.settings1) Registration.freshServer))).
Proof.
  assert (In (str "1440p") resolutions) as H by (vm_compute; tauto).
  split; [exact H|].
  apply (reload_reads_registered_settings (fun _ => Samples.settings1)
           Registration.freshServer (str "1440p") H).
Defined.

(** Once [register] has run, every change of the settings reported to the
    listener leaves the table compiled from the changed settings alone:
    nothing of the table built at start-up, of the settings manager given to
    [register] or of the earlier state of the server is left in it.  The
    table built at start-up is the one a change to the settings the manager
    returns for the registered names would give.  Before [register] a
    reported change does nothing. *)
Theorem register_then_settings_change getSettings sv settings :
  (forall getSettings' sv',
     profileTable
       (Registration.host
          (Registration.settingsChanged settings (Registration.register getSettings sv)))
     = profileTable
         (Registration.host
            (Registration.settingsChanged settings (Registration.register getSettings' sv')))) /\
  profileTable (Registration.host (Registration.register getSettings sv))
  = profileTable
      (Registration.host
         (Registration.settingsChanged
            (getSettings (map name Registration.settingsToRegister))
            (Registration.register getSettings sv))) /\
  Registration.settingsChanged settings Registration.freshServer = Registration.freshServer.
Proof.
  split; [|split].
  - intros g' sv'. rewrite !RegistrationFacts.changed_table. reflexivity.
  - rewrite RegistrationFacts.changed_table, RegistrationFacts.registered_table. reflexivity.
  - reflexivity.
Qed.

(** [unregister] after [register] removes every profile and priority, but
    the context stays populated: a change of the settings reported
    afterwards registers the profiles of the changed settings again, as if
    [unregister] had not been called. *)
Theorem unregister_keeps_the_listener getSettings sv settings :
  profileTable (Registration.host (Registration.unregister (Registration.register getSettings sv)))
  = ([], []) /\
  profileTable
    (Registration.host
       (Registration.settingsChanged settings
          (Registration.unregister (Registration.register getSettings sv))))
  = profileTable
      (Registration.host
         (Registration.settingsChanged settings (Registration.register getSettings sv))).
Proof.
  split; [reflexivity|].
  rewrite RegistrationFacts.changed_table, RegistrationFacts.changed_after_unregister_table.
  reflexivity.
Qed.

(** With every setting at the default [register] declares, start-up
    registers profiles for 720p and 1080p only, the two resolutions enabled
    by default: libx264 with the preset fast for 720p and medium for 1080p,
    each paired with aac at 128k, and no thread flag. *)
Theorem defaults_register_720p_and_1080p :
  vodProfiles
    (Registration.host
       (Registration.register (fun _ => defaultsOf Registration.settingsToRegister)
          Registration.freshServer))
  = [ {| encoder := str "libx264"; profileName := str "custom-720p-libx264";
         build := {| inputOptions := [];
                     outputOptions := [ str "-crf"; str "23"; str "-preset"; str "fast";
                                        str "-pix_fmt"; str "yuv420p" ] |} |};
      {| encoder := str "aac"; profileName := str "custom-720p-libx264";
         build := {| inputOptions := []; outputOptions := [ str "-b:a"; str "128k" ] |} |};
      {| encoder := str "libx264"; profileName := str "custom-1080p-libx264";
         build := {| inputOptions := [];
                     outputOptions := [ str "-crf"; str "23"; str "-preset"; str "medium";
                                        str "-pix_fmt"; str "yuv420p" ] |} |};
      {| encoder := str "aac"; profileName := str "custom-1080p-libx264";
         build := {| inputOptions := []; outputOptions := [ str "-b:a"; str "128k" ] |} |} ].
Proof. vm_compute. reflexivity. Qed.

(* ===================================================================== *)
(** ** The hook (main.ts, first document) *)
(* ===================================================================== *)

Module HookFacts.
Import Hook.

Lemma trimStart_split s :
  exists sp, s = sp ++ trimStart s /\ Forall (fun c => isSpace c = true) sp /\
             match trimStart s with c :: _ => isSpace c = false | [] => True end.
Proof.
  unfold trimStart. destruct (span isSpace s) as [sp r] eqn:E.
  apply TokenizerShape.span_split in E as (Hs & Hsp & Hr).
  exists sp. repeat split; assumption.
Qed.

(** [trim] takes white space away at both ends and nothing else *)
Lemma trim_split s :
  exists sp1 sp2,
    s = sp1 ++ trim s ++ sp2 /\
    Forall (fun c => isSpace c = true) sp1 /\ Forall (fun c => isSpace c = true) sp2 /\
    match trim s with c :: _ => isSpace c = false | [] => True end /\
    match rev (trim s) with c :: _ => isSpace c = false | [] => True end.
Proof.
  unfold trim.
  destruct (trimStart_split s) as (sp1 & Hs & Hsp1 & Hhead).
  destruct (trimStart_split (rev (trimStart s))) as (sp & Hr & Hsp & Hlast).
  set (u := trimStart s) in *. set (T := trimStart (rev u)) in *.
  assert (u = rev T ++ rev sp) as Hu.
  { rewrite <- (rev_involutive u), Hr, rev_app_distr. reflexivity. }
  exists sp1, (rev sp). split; [rewrite Hs at 1; rewrite Hu at 1; reflexivity|].
  split; [exact Hsp1|]. split; [apply Forall_rev, Hsp|].
  split; [|rewrite rev_involutive; exact Hlast].
  destruct (rev T) as [|c t] eqn:E; [exact I|].
  rewrite Hu in Hhead. exact Hhead.
Qed.

(** a text that holds a character other than white space keeps everything
    up to that character when white space is taken away at its end *)
Lemma kept_prefix X c Y t sp :
  X ++ c :: Y = t ++ sp -> isSpace c = false ->
  Forall (fun d => isSpace d = true) sp ->
  exists Y', t = X ++ c :: Y'.
Proof.
  intros E Hc Hsp. revert X E. induction t as [|a t IH]; intros X E.
  - exfalso. simpl in E. rewrite Forall_forall in Hsp.
    assert (c ∈ sp) as Hin by (rewrite <- E; apply list_elem_of_In, in_elt).
    rewrite (Hsp c Hin) in Hc. discriminate.
  - destruct X as [|x X]; simpl in E; injection E as -> E.
    + exists t. reflexivity.
    + destruct (IH X E) as [Y' ->]. exists Y'. reflexivity.
Qed.

End HookFacts.

(** The hook hands back exactly the profiles whose resolution is enabled,
    in the order it got them and with their resolution unchanged; the others
    are dropped. *)
Theorem hook_keeps_enabled_profiles settings config (profiles : list Hook.HostProfile) :
  map Hook.resolution (Hook.newProfiles settings config profiles)
  = map Hook.resolution
      (List.filter (fun p => truthyFlag (Hook.isEnabled settings p)) profiles).
Proof.
  unfold Hook.newProfiles. induction profiles as [|p l IH]; [reflexivity|].
  cbn [omap list_omap List.filter]. unfold Hook.transcodeProfile at 1.
  destruct (truthyFlag (Hook.isEnabled settings p)); simpl; rewrite IH; reflexivity.
Qed.

(** The argument string of a profile the hook hands back is the
    concatenation built from the settings with white space taken away at both
    ends and nothing else: it neither begins nor ends with white space. *)
Theorem hook_arguments_are_trimmed settings config (p p' : Hook.HostProfile) :
  Hook.transcodeProfile settings config p = Some p' ->
  exists sp1 sp2,
    Hook.finalArguments settings config p = sp1 ++ Hook.arguments p' ++ sp2 /\
    Forall (fun c => isSpace c = true) sp1 /\ Forall (fun c => isSpace c = true) sp2 /\
    match Hook.arguments p' with c :: _ => isSpace c = false | [] => True end /\
    match rev (Hook.arguments p') with c :: _ => isSpace c = false | [] => True end.
Proof.
  unfold Hook.transcodeProfile.
  destruct (truthyFlag (Hook.isEnabled settings p)); simpl; [|discriminate].
  intros [= <-]. simpl. apply HookFacts.trim_split.
Qed.

Lemma hook_arguments_are_trimmed_witness :
  Hook.transcodeProfile
    {| strings := ∅; flags := {[ Hook.key (str "720p") "enabled" := true ]} |}
    {| Hook.audio_codec := Some (str "aac"); Hook.audio_params := Some [];
       Hook.transcode_threads := 0 |}
    {| Hook.resolution := {| Hook.id := 720; Hook.width := 1280; Hook.height := 720 |};
       Hook.arguments := [] |}
  = Some {| Hook.resolution := {| Hook.id := 720; Hook.width := 1280; Hook.height := 720 |};
            Hook.arguments :=
              str "undefined -c:v undefined undefined undefined -c:a aac" |} /\
  match str "undefined -c:v undefined undefined undefined -c:a aac" with
  | c :: _ => isSpace c = false
  | [] => True
  end.
Proof.
  assert (Hook.transcodeProfile
            {| strings := ∅; flags := {[ Hook.key (str "720p") "enabled" := true ]} |}
            {| Hook.audio_codec := Some (str "aac"); Hook.audio_params := Some [];
               Hook.transcode_threads := 0 |}
            {| Hook.resolution := {| Hook.id := 720; Hook.width := 1280; Hook.height := 720 |};
               Hook.arguments := [] |}
          = Some {| Hook.resolution :=
                      {| Hook.id := 720; Hook.width := 1280; Hook.height := 720 |};
                    Hook.arguments :=
                      str "undefined -c:v undefined undefined undefined -c:a aac" |}) as H.
  { vm_compute. reflexivity. }
  split; [exact H|].
  destruct (hook_arguments_are_trimmed _ _ _ _ H) as (sp1 & sp2 & _ & _ & _ & Hhead & _).
  exact Hhead.
Defined.

(** When the thread count is a whole number from 1 to 2^53, the range in
    which [Number_toString] is the text the template literal writes, the
    argument string of a kept profile begins with the thread flag and that
    number, followed by the input parameters and the selector of the video
    codec. *)
Theorem hook_arguments_begin_with_threads settings config (p p' : Hook.HostProfile) :
  Hook.transcodeProfile settings config p = Some p' ->
  (0 < Hook.transcode_threads config)%Z ->
  (Hook.transcode_threads config <= 2 ^ 53)%Z ->
  exists rest,
    Hook.arguments p'
    = str "-threads " ++ Number_toString (Hook.transcode_threads config) ++ str " "
      ++ toStr (strings settings !! Hook.key (Hook.resolutionId p) "input_params")
      ++ str " -c:v" ++ rest.
Proof.
  intros Hp Hn _.
  assert (Hook.arguments p' = Hook.trim (Hook.finalArguments settings config p)) as ->.
  { unfold Hook.transcodeProfile in Hp.
    destruct (truthyFlag (Hook.isEnabled settings p)); simpl in Hp; [|discriminate].
    injection Hp as <-. reflexivity. }
  destruct (HookFacts.trim_split (Hook.finalArguments settings config p))
    as (sp1 & sp2 & E & Hsp1 & Hsp2 & _ & _).
  set (A := str "-threads " ++ Number_toString (Hook.transcode_threads config) ++ str " ").
  set (B := toStr (strings settings !! Hook.key (Hook.resolutionId p) "input_params")).
  assert (exists R, Hook.finalArguments settings config p
                    = (A ++ B ++ str " -c:") ++ 118 :: R) as [R HF].
  { unfold Hook.finalArguments. apply Z.ltb_lt in Hn. rewrite Hn. fold A. fold B.
    eexists. subst A. rewrite <- !app_assoc.
    change (str " -c:v " ++ ?r) with (str " -c:" ++ 118 :: str " " ++ r). reflexivity. }
  assert (sp1 = []) as ->.
  { destruct sp1 as [|c sp1]; [reflexivity|]. exfalso.
    apply Forall_cons in Hsp1 as [Hc _].
    rewrite HF in E. subst A. simpl in E. injection E as <- _. discriminate Hc. }
  simpl in E. rewrite HF in E at 1.
  destruct (HookFacts.kept_prefix _ 118 _ _ _ E eq_refl Hsp2) as [Y' ->].
  exists Y'. subst A. rewrite <- !app_assoc. reflexivity.
Qed.

Lemma hook_arguments_begin_with_threads_witness :
  Hook.transcodeProfile
    {| strings := {[ Hook.key (str "720p") "input_params" := str "-hwaccel auto" ]};
       flags := {[ Hook.key (str "720p") "enabled" := true ]} |}
    {| Hook.audio_codec := Some (str "aac"); Hook.audio_params := Some (str "-b:a 128k");
       Hook.transcode_threads := 4 |}
    {| Hook.resolution := {| Hook.id := 720; Hook.width := 1280; Hook.height := 720 |};
       Hook.arguments := [] |}
  = Some {| Hook.resolution := {| Hook.id := 720; Hook.width := 1280; Hook.height := 720 |};
            Hook.arguments :=
              str "-threads 4 -hwaccel auto -c:v undefined undefined undefined -c:a aac -b:a 128k" |} /\
  (0 < 4)%Z /\
  (4 <= 2 ^ 53)%Z /\
  exists rest,
    str "-threads 4 -hwaccel auto -c:v undefined undefined undefined -c:a aac -b:a 128k"
    = str "-threads " ++ Number_toString 4 ++ str " " ++ str "-hwaccel auto"
      ++ str " -c:v" ++ rest.
Proof.
  assert (Hook.transcodeProfile
    {| strings := {[ Hook.key (str "720p") "input_params" := str "-hwaccel auto" ]};
       flags := {[ Hook.key (str "720p") "enabled" := true ]} |}
    {| Hook.audio_codec := Some (str "aac"); Hook.audio_params := Some (str "-b:a 128k");
       Hook.transcode_threads := 4 |}
    {| Hook.resolution := {| Hook.id := 720; Hook.width := 1280; Hook.height := 720 |};
       Hook.arguments := [] |}
  = Some {| Hook.resolution := {| Hook.id := 720; Hook.width := 1280; Hook.height := 720 |};
            Hook.arguments :=
              str "-threads 4 -hwaccel auto -c:v undefined undefined undefined -c:a aac -b:a 128k" |})
    as H by (vm_compute; reflexivity).
  split; [exact H|]. split; [reflexivity|]. split; [discriminate|].
  refine (hook_arguments_begin_with_threads _ _ _ _ H eq_refl _). discriminate.
Defined.

Module PlaceholderFacts.
Import NumberFacts.

Lemma substitute_unfold w h c d t :
  Hook.substitutePlaceholders w h (c :: d :: t)
  = if (c =? PERCENT) && (d =? 119) then w ++ Hook.substitutePlaceholders w h t
    else if (c =? PERCENT) && (d =? 104) then h ++ Hook.substitutePlaceholders w h t
    else c :: Hook.substitutePlaceholders w h (d :: t).
Proof. reflexivity. Qed.

Lemma hasPlaceholder_unfold c d t :
  hasPlaceholder (c :: d :: t)
  = ((c =? PERCENT) && ((d =? 119) || (d =? 104))) || hasPlaceholder (d :: t).
Proof. reflexivity. Qed.

(** a text without placeholders is left as it is *)
Lemma substitute_fixed w h s :
  hasPlaceholder s = false -> Hook.substitutePlaceholders w h s = s.
Proof.
  induction s as [|c t IH]; [reflexivity|].
  destruct t as [|d t]; [reflexivity|].
  rewrite hasPlaceholder_unfold, substitute_unfold. intros Hno.
  apply orb_false_iff in Hno as [Hpair Hrest].
  destruct (c =? PERCENT); cbn [andb] in Hpair |- *.
  - apply orb_false_iff in Hpair as [-> ->]. rewrite (IH Hrest). reflexivity.
  - rewrite (IH Hrest). reflexivity.
Qed.

Lemma hasPlaceholder_other c X : c <> PERCENT -> hasPlaceholder (c :: X) = hasPlaceholder X.
Proof.
  intros Hc. destruct X as [|d X]; [reflexivity|].
  rewrite hasPlaceholder_unfold. apply N.eqb_neq in Hc. rewrite Hc. reflexivity.
Qed.

Lemma hasPlaceholder_percent X :
  headIsNot 119 X -> headIsNot 104 X -> hasPlaceholder (PERCENT :: X) = hasPlaceholder X.
Proof.
  destruct X as [|d X]; [reflexivity|]. simpl headIsNot. intros Hw Hh.
  rewrite hasPlaceholder_unfold. apply N.eqb_neq in Hw, Hh. rewrite Hw, Hh. reflexivity.
Qed.

Lemma hasPlaceholder_numeric W X :
  Forall numeric W -> hasPlaceholder (W ++ X) = hasPlaceholder X.
Proof.
  induction 1 as [|c W Hc _ IH]; [reflexivity|].
  simpl app. rewrite hasPlaceholder_other; [exact IH|].
  destruct Hc as [-> | [? ?]]; unfold PERCENT; lia.
Qed.

Lemma numeric_head b W : (b = 119 \/ b = 104) -> Forall numeric W -> headIsNot b W.
Proof.
  intros Hb HW. destruct W as [|c W]; [exact I|]. simpl.
  apply Forall_cons in HW as [[-> | [? ?]] _]; destruct Hb as [-> | ->]; lia.
Qed.

Section Resolved.
Variables W H : jsstring.
Hypothesis W_numeric : Forall numeric W.
Hypothesis H_numeric : Forall numeric H.
Hypothesis W_nonempty : W <> [].
Hypothesis H_nonempty : H <> [].

Lemma substitute_head b d t :
  (b = 119 \/ b = 104) -> d <> b ->
  headIsNot b (Hook.substitutePlaceholders W H (d :: t)).
Proof.
  intros Hb Hd. destruct t as [|e t]; [exact Hd|].
  rewrite substitute_unfold.
  destruct ((d =? PERCENT) && (e =? 119)).
  - pose proof (numeric_head b W Hb W_numeric). destruct W; [contradiction | assumption].
  - destruct ((d =? PERCENT) && (e =? 104)); [|exact Hd].
    pose proof (numeric_head b H Hb H_numeric). destruct H; [contradiction | assumption].
Qed.

Lemma substitute_resolved_bounded n s :
  (length s <= n)%nat -> hasPlaceholder (Hook.substitutePlaceholders W H s) = false.
Proof.
  revert s; induction n as [|n IH]; intros s Hlen.
  { destruct s; [reflexivity | simpl in Hlen; lia]. }
  destruct s as [|c [|d t]]; [reflexivity | reflexivity |].
  rewrite substitute_unfold. simpl in Hlen.
  destruct (N.eqb_spec c PERCENT) as [->|Hc]; cbn [andb].
  - destruct (N.eqb_spec d 119) as [->|Hw].
    + rewrite (hasPlaceholder_numeric W _ W_numeric). apply IH. lia.
    + destruct (N.eqb_spec d 104) as [->|Hh].
      * rewrite (hasPlaceholder_numeric H _ H_numeric). apply IH. lia.
      * rewrite hasPlaceholder_percent.
        -- apply IH. simpl. lia.
        -- apply substitute_head; [left; reflexivity | exact Hw].
        -- apply substitute_head; [right; reflexivity | exact Hh].
  - rewrite (hasPlaceholder_other c _ Hc). apply IH. simpl. lia.
Qed.
End Resolved.

Lemma resolve_is_substitute s w h :
  Hook.resolvePlaceholders (Some s) w h
  = Some (Hook.substitutePlaceholders (Number_toString w) (Number_toString h) s).
Proof.
  unfold Hook.resolvePlaceholders. destruct s as [|c s]; [reflexivity|].
  simpl truthyStr. cbv iota. simpl toStr. f_equal.
  apply (ReplaceFacts.two_passes_bounded _ _ (Number_toString_numeric w)
           (Number_toString_nonempty w) (length (c :: s))).
  reflexivity.
Qed.

End PlaceholderFacts.

(** After the placeholders were resolved none is left, whatever the filter
    string and the dimensions: the result holds no percent sign followed by w
    or by h, and resolving it once more changes nothing. *)
Theorem resolvePlaceholders_leaves_none (filterString : jsstring) (width height : Z) :
  exists resolved,
    Hook.resolvePlaceholders (Some filterString) width height = Some resolved /\
    hasPlaceholder resolved = false /\
    forall width' height',
      Hook.resolvePlaceholders (Some resolved) width' height' = Some resolved.
Proof.
  eexists. split; [apply PlaceholderFacts.resolve_is_substitute|].
  assert (hasPlaceholder
            (Hook.substitutePlaceholders (Number_toString width) (Number_toString height)
               filterString) = false) as Hnone.
  { apply (PlaceholderFacts.substitute_resolved_bounded _ _
             (NumberFacts.Number_toString_numeric width)
             (NumberFacts.Number_toString_numeric height)
             (NumberFacts.Number_toString_nonempty width)
             (NumberFacts.Number_toString_nonempty height)
             (length filterString)).
    reflexivity. }
  split; [exact Hnone|].
  intros width' height'. rewrite PlaceholderFacts.resolve_is_substitute.
  rewrite (PlaceholderFacts.substitute_fixed _ _ _ Hnone). reflexivity.
Qed.

(* ===================================================================== *)
(** ** Which settings exist for which resolution *)
(* ===================================================================== *)

Module KeyFacts.

(** the number in front of a key that begins with a rendered integer *)
Lemma rendered_number z tail s :
  Number_toString z ++ tail = s ->
  match tail with c :: _ => isDigit c = false | [] => True end ->
  parseInt10 s = Some z.
Proof.
  intros <- Htail.
  exact (ThreadFacts.parseInt10_rendered [] z tail (List.Forall_nil _) Htail).
Qed.

End KeyFacts.

(** The hook has registered settings exactly for the eight resolutions of
    its list: the `enabled` key it reads for a profile is a registered name
    if and only if the resolution id of the profile is one of 144, 240, 360,
    480, 720, 1080, 1440 and 2160, and then the other four keys it reads are
    registered as well. *)
Theorem hook_settings_exist_for_eight_resolutions (p : Hook.HostProfile) :
  let names := map name HookRegistration.registeredSettings in
  (In (Hook.key (Hook.resolutionId p) "enabled") names
   <-> In (Hook.id (Hook.resolution p)) [ 144; 240; 360; 480; 720; 1080; 1440; 2160 ]%Z) /\
  (In (Hook.id (Hook.resolution p)) [ 144; 240; 360; 480; 720; 1080; 1440; 2160 ]%Z ->
   In (Hook.key (Hook.resolutionId p) "codec") names /\
   In (Hook.key (Hook.resolutionId p) "input_params") names /\
   In (Hook.key (Hook.resolutionId p) "codec_params") names /\
   In (Hook.key (Hook.resolutionId p) "output_filters") names).
Proof.
  intros names. subst names. unfold Hook.resolutionId, Hook.key.
  generalize (Hook.id (Hook.resolution p)). intros z.
  assert (forall field : string,
            In z [ 144; 240; 360; 480; 720; 1080; 1440; 2160 ]%Z ->
            In field [ "enabled"; "codec"; "input_params"; "codec_params"; "output_filters" ]%string ->
            In (str "resolution_" ++ (Number_toString z ++ str "p") ++ str "_" ++ str field)
               (map name HookRegistration.registeredSettings)) as Hfwd.
  { intros field Hz Hf. simpl in Hz, Hf.
    repeat (destruct Hz as [<-|Hz];
            [repeat (destruct Hf as [<-|Hf];
                     [apply list_elem_of_In, (bool_decide_unpack _); vm_compute; exact I|]);
             destruct Hf|]).
    destruct Hz. }
  split; [split|].
  - intros Hin.
    assert (exists s, s = str "resolution_" ++ (Number_toString z ++ str "p") ++ str "_enabled"
                      /\ In s (map name HookRegistration.registeredSettings)) as (s & Hs & Hin').
    { eexists. split; [reflexivity | exact Hin]. }
    clear Hin. vm_compute in Hin'. rewrite <- !app_assoc in Hs.
    repeat (destruct Hin' as [Hin'|Hin'];
      [ rewrite <- Hin' in Hs;
        first
          [ solve [ exfalso; apply (f_equal (take 11)) in Hs; vm_compute in Hs; discriminate Hs ]
          | apply (f_equal (drop 11)) in Hs;
            pose proof (KeyFacts.rendered_number z _ _ (eq_sym Hs) eq_refl) as Hn;
            vm_compute in Hn; injection Hn as <-; vm_compute; tauto ]
      | ]).
    destruct Hin'.
  - intros Hz. apply (Hfwd "enabled"%string Hz). simpl. tauto.
  - intros Hz. repeat split; apply Hfwd; simpl; tauto.
Qed.

(* ===================================================================== *)
(** ** The single profile (main.ts, second document) *)
(* ===================================================================== *)

(** The list [settingNames] that [register] builds name by name is the list
    of the names of the settings it registers, 26 different names.  The codec
    key the video builder asks for is one of them if and only if the
    requested resolution is one of 144, 240, 360, 480, 720, 1080, 1440 and
    2160, and then its other two keys are registered as well. *)
Theorem single_profile_settings_exist_for_eight_resolutions (resolution : Z) :
  SingleProfileRegistration.settingNames
  = map name SingleProfileRegistration.settingsToRegister /\
  NoDup SingleProfileRegistration.settingNames /\
  length SingleProfileRegistration.settingNames = 26%nat /\
  (In (str "resolution_" ++ (Number_toString resolution ++ str "p") ++ str "_codec")
      SingleProfileRegistration.settingNames
   <-> In resolution [ 144; 240; 360; 480; 720; 1080; 1440; 2160 ]%Z) /\
  (In resolution [ 144; 240; 360; 480; 720; 1080; 1440; 2160 ]%Z ->
   forall k, In k (SingleProfileRegistration.builderKeys resolution) ->
             In k SingleProfileRegistration.settingNames).
Proof.
  split; [reflexivity|].
  split; [apply (bool_decide_unpack _); vm_compute; exact I|].
  split; [reflexivity|].
  assert (In resolution [ 144; 240; 360; 480; 720; 1080; 1440; 2160 ]%Z ->
          forall k, In k (SingleProfileRegistration.builderKeys resolution) ->
                    In k SingleProfileRegistration.settingNames) as Hfwd.
  { intros Hz k Hk. simpl in Hz.
    repeat (destruct Hz as [<-|Hz];
            [vm_compute in Hk;
             repeat (destruct Hk as [<-|Hk];
                     [apply list_elem_of_In, (bool_decide_unpack _); vm_compute; exact I|]);
             destruct Hk|]).
    destruct Hz. }
  split; [split|exact Hfwd].
  - intros Hin.
    assert (exists s, s = str "resolution_" ++ (Number_toString resolution ++ str "p")
                          ++ str "_codec"
                      /\ In s SingleProfileRegistration.settingNames) as (s & Hs & Hin').
    { eexists. split; [reflexivity | exact Hin]. }
    clear Hin. vm_compute in Hin'. rewrite <- !app_assoc in Hs.
    repeat (destruct Hin' as [Hin'|Hin'];
      [ rewrite <- Hin' in Hs;
        first
          [ solve [ exfalso; apply (f_equal (take 11)) in Hs; vm_compute in Hs; discriminate Hs ]
          | apply (f_equal (drop 11)) in Hs;
            pose proof (KeyFacts.rendered_number resolution _ _ (eq_sym Hs) eq_refl) as Hn;
            vm_compute in Hn; injection Hn as <-; vm_compute; tauto ]
      | ]).
    destruct Hin'.
  - intros Hz. apply (Hfwd Hz). left. reflexivity.
Qed.

(** Whatever the settings and the resolution, the output options the video
    builder returns begin with [-c:v] and a codec name that is not empty.
    The builder logs a warning if and only if the codec setting of the
    resolution is absent or empty.  In that case it falls back: the codec is
    libx264, the other output options are [-crf 23] and there are no input
    options.  When the setting holds a name, the codec is that name, the
    other output options are the tokens of the codec parameters, the input
    options are the tokens of the input parameters, and the line logged is
    an information.  The resolution is a whole number of magnitude at most
    2^53, the range in which [Number_toString] spells the setting names as
    the code does. *)
Theorem video_builder_always_selects_a_codec
    (getSettings : list jsstring -> Settings) (resolution : Z) :
  (Z.abs resolution <= 2 ^ 53)%Z ->
  exists codec rest,
    outputOptions (fst (SingleProfile.videoBuilder getSettings resolution))
    = str "-c:v" :: codec :: rest /\
    codec <> [] /\
    (fst (snd (SingleProfile.videoBuilder getSettings resolution)) = warn
     <-> truthyStr
           (strings (getSettings (SingleProfileRegistration.builderKeys resolution))
              !! (str "resolution_" ++ (Number_toString resolution ++ str "p")
                  ++ str "_codec")) = false) /\
    (truthyStr
       (strings (getSettings (SingleProfileRegistration.builderKeys resolution))
          !! (str "resolution_" ++ (Number_toString resolution ++ str "p")
              ++ str "_codec")) = false ->
     codec = str "libx264" /\ rest = [ str "-crf"; str "23" ] /\
     inputOptions (fst (SingleProfile.videoBuilder getSettings resolution)) = []) /\
    (forall c,
       strings (getSettings (SingleProfileRegistration.builderKeys resolution))
         !! (str "resolution_" ++ (Number_toString resolution ++ str "p") ++ str "_codec")
       = Some c ->
       c <> [] ->
       codec = c /\
       rest = parseOptionsString
                (strings (getSettings (SingleProfileRegistration.builderKeys resolution))
                   !! (str "resolution_" ++ (Number_toString resolution ++ str "p")
                       ++ str "_codec_params")) /\
       inputOptions (fst (SingleProfile.videoBuilder getSettings resolution))
       = parseOptionsString
           (strings (getSettings (SingleProfileRegistration.builderKeys resolution))
              !! (str "resolution_" ++ (Number_toString resolution ++ str "p")
                  ++ str "_input_params")) /\
       fst (snd (SingleProfile.videoBuilder getSettings resolution)) = info).
Proof.
  intros _.
  unfold SingleProfile.videoBuilder, SingleProfileRegistration.builderKeys. cbv zeta.
  destruct (strings _ !! (str "resolution_" ++ (Number_toString resolution ++ str "p")
                          ++ str "_codec")) as [[|c s]|] eqn:E;
    cbn [truthyStr truthy negb fst snd outputOptions inputOptions toStr].
  - exists (str "libx264"), [ str "-crf"; str "23" ].
    split; [reflexivity|]. split; [discriminate|]. split; [split; reflexivity|].
    split; [intros _; repeat split|].
    intros c [= <-] Hc. destruct Hc. reflexivity.
  - eexists (c :: s), _.
    split; [reflexivity|]. split; [discriminate|].
    split; [split; discriminate|].
    split; [discriminate|].
    intros c' [= <-] _. repeat split.
  - exists (str "libx264"), [ str "-crf"; str "23" ].
    split; [reflexivity|]. split; [discriminate|]. split; [split; reflexivity|].
    split; [intros _; repeat split|].
    intros c [=].
Qed.

Lemma video_builder_always_selects_a_codec_witness :
  (Z.abs 720 <= 2 ^ 53)%Z /\
  exists codec rest,
    outputOptions
      (fst (SingleProfile.videoBuilder
              (fun _ => {| strings := {[ str "resolution_720p_codec" := str "h264_rkmpp";
                                         str "resolution_720p_codec_params" := str "-qp 24" ]};
                           flags := ∅ |}) 720))
    = str "-c:v" :: codec :: rest /\
    codec = str "h264_rkmpp" /\ rest = [ str "-qp"; str "24" ].
Proof.
  split; [discriminate|].
  destruct (video_builder_always_selects_a_codec
              (fun _ => {| strings := {[ str "resolution_720p_codec" := str "h264_rkmpp";
                                         str "resolution_720p_codec_params" := str "-qp 24" ]};
                           flags := ∅ |}) 720)
    as (codec & rest & Hout & _ & _ & _ & Hset); [discriminate|].
  exists codec, rest. split; [exact Hout|].
  destruct (Hset (str "h264_rkmpp")) as (Hc & Hr & _); [reflexivity | discriminate |].
  split; [exact Hc|].
  rewrite Hr. vm_compute. reflexivity.
Defined.

(** The setting `audio_codec` is registered but never read: two settings
    managers that differ in nothing but the value of `audio_codec` get the
    same options from the audio builder and from the video builder, with the
    same log line, for every resolution. *)
Theorem audio_codec_setting_is_never_read (getSettings getSettings' : list jsstring -> Settings) :
  (forall names k, k <> str "audio_codec" ->
     strings (getSettings names) !! k = strings (getSettings' names) !! k) ->
  In (str "audio_codec") SingleProfileRegistration.settingNames /\
  SingleProfile.audioBuilder getSettings = SingleProfile.audioBuilder getSettings' /\
  forall resolution,
    SingleProfile.videoBuilder getSettings resolution
    = SingleProfile.videoBuilder getSettings' resolution.
Proof.
  intros Hsame. split; [left; reflexivity|]. split.
  - unfold SingleProfile.audioBuilder. cbv zeta. rewrite Hsame; [reflexivity | discriminate].
  - intros resolution. unfold SingleProfile.videoBuilder. cbv zeta.
    rewrite !(Hsame _ (str "resolution_" ++ _)); [reflexivity | discriminate..].
Qed.

Lemma audio_codec_setting_is_never_read_witness :
  (forall (names : list jsstring) k, k <> str "audio_codec" ->
     strings {| strings := {[ str "audio_codec" := str "aac" ]}; flags := ∅ |} !! k
     = strings {| strings := {[ str "audio_codec" := str "libopus" ]}; flags := ∅ |} !! k) /\
  SingleProfile.audioBuilder
    (fun _ => {| strings := {[ str "audio_codec" := str "aac" ]}; flags := ∅ |})
  = SingleProfile.audioBuilder
      (fun _ => {| strings := {[ str "audio_codec" := str "libopus" ]}; flags := ∅ |}).
Proof.
  assert (forall (names : list jsstring) k, k <> str "audio_codec" ->
            strings {| strings := {[ str "audio_codec" := str "aac" ]}; flags := ∅ |} !! k
            = strings {| strings := {[ str "audio_codec" := str "libopus" ]}; flags := ∅ |} !! k)
    as H.
  { intros _ k Hk. cbn [strings]. rewrite !lookup_singleton_ne by congruence. reflexivity. }
  split; [exact H|].
  apply (audio_codec_setting_is_never_read
           (fun _ => {| strings := {[ str "audio_codec" := str "aac" ]}; flags := ∅ |})
           (fun _ => {| strings := {[ str "audio_codec" := str "libopus" ]}; flags := ∅ |}) H).
Defined.

(* ===================================================================== *)
(** ** From the setting to the options *)
(* ===================================================================== *)

(** End to end: when the codec parameters of an enabled tier with a codec
    are words without white space and quotes, written with one space between
    them, the video profile registered for the tier has exactly these words
    as its output options, one word per option and in the same order. *)
Theorem codec_params_words_become_options
    ctx initialSettings getSettings h res codec (ws : list jsstring) :
  transcodingManager ctx = Some attached ->
  logger ctx = Some attached ->
  settingsManager ctx = Some getSettings ->
  In res resolutions ->
  isEnabled (settingsOf getSettings ctx initialSettings) res = Some true ->
  videoCodec (settingsOf getSettings ctx initialSettings) res = Some codec ->
  codec <> [] ->
  strings (settingsOf getSettings ctx initialSettings) !! key res "codec_params"
  = Some (joinWords ws) ->
  Forall plainWord ws ->
  exists v,
    In v (vodProfiles (updateTranscodingProfiles ctx initialSettings h)) /\
    encoder v = codec /\
    profileName v = str "custom-" ++ res ++ str "-" ++ codec /\
    outputOptions (build v) = ws.
Proof.
  intros Ht Hl Hs Hres He Hc Hne Hparams Hws. rewrite (update_ready _ _ _ Ht Hl Hs).
  set (settings := settingsOf getSettings ctx initialSettings) in *.
  exists (videoProfile settings res). split; [|split; [|split]].
  - rewrite refresh_profiles. apply in_flat_map. exists res. split; [exact Hres|].
    unfold tierProfiles. rewrite (registers_intro _ _ _ He Hc Hne). left. reflexivity.
  - simpl. rewrite Hc. reflexivity.
  - simpl. unfold profileNameOf. rewrite Hc. destruct codec; [contradiction | reflexivity].
  - unfold videoProfile. cbn [build outputOptions].
    unfold codecParamsStr. rewrite parse_orElse_nil, Hparams.
    rewrite parseOptionsString_matchAll. apply matchAll_joinWords, Hws.
Qed.

Lemma codec_params_words_become_options_witness :
  transcodingManager Samples.readyContext = Some attached /\
  logger Samples.readyContext = Some attached /\
  settingsManager Samples.readyContext = Some (fun _ => Samples.settings1) /\
  In (str "1080p") resolutions /\
  isEnabled (settingsOf (fun _ => Samples.settings1) Samples.readyContext None) (str "1080p")
  = Some true /\
  videoCodec (settingsOf (fun _ => Samples.settings1) Samples.readyContext None) (str "1080p")
  = Some (str "libx264") /\
  str "libx264" <> [] /\
  strings (settingsOf (fun _ => Samples.settings1) Samples.readyContext None)
    !! key (str "1080p") "codec_params"
  = Some (joinWords [ str "-crf"; str "23"; str "-preset"; str "veryfast" ]) /\
  Forall plainWord [ str "-crf"; str "23"; str "-preset"; str "veryfast" ] /\
  exists v,
    In v (vodProfiles (updateTranscodingProfiles Samples.readyContext None Samples.staleHost)) /\
    encoder v = str "libx264" /\
    profileName v = str "custom-" ++ str "1080p" ++ str "-" ++ str "libx264" /\
    outputOptions (build v) = [ str "-crf"; str "23"; str "-preset"; str "veryfast" ].
Proof.
  assert (Forall plainWord [ str "-crf"; str "23"; str "-preset"; str "veryfast" ]) as Hws.
  { repeat constructor; try discriminate. }
  assert (In (str "1080p") resolutions) as Hres by (vm_compute; tauto).
  split; [reflexivity|]. split; [reflexivity|]. split; [reflexivity|].
  split; [exact Hres|]. split; [reflexivity|]. split; [reflexivity|].
  split; [discriminate|]. split; [reflexivity|]. split; [exact Hws|].
  apply (codec_params_words_become_options Samples.readyContext None
           (fun _ => Samples.settings1) Samples.staleHost (str "1080p") (str "libx264")
           [ str "-crf"; str "23"; str "-preset"; str "veryfast" ]);
    try reflexivity; try assumption.
  discriminate.
Defined.
